(** * EmbeddingLoader: a shallow embedding of [embedding_loader.py]

    The loader resolves a request (embedding kind, corpus, parameters) to a
    file name, unpickles the file found under the loader's directory and,
    for the derived corpus ["concat"], combines the ["title"] and ["text"]
    artifacts column-wise.

    Python values are a small tagged universe ([pyval]); the interpreter
    state a method can observe or change is a record ([world]) threaded
    through a state-and-exception monad ([M]).  Assertions are taken as
    enabled (the interpreter's default mode).

    A string is a sequence of characters with code points below 256: the
    character of code [n] stands for U+00[n].  File names are handed to the
    operating system in UTF-8, where a character of code 128 or more takes
    two bytes. *)

From Stdlib Require Import ZArith String Ascii List Lia.
From stdpp Require Import base option list strings pretty gmap.
From Equations Require Import Equations.

Local Open Scope string_scope.

(** ** Python values passed as parameters *)

Inductive pyval : Type :=
  | PyNone
  | PyBool (b : bool)
  | PyInt (z : Z)
  | PyStr (s : string).

(** [bool(v)]: the truth value Python gives [v] in a conditional. *)
Definition truthy (v : pyval) : bool :=
  match v with
  | PyNone => false
  | PyBool b => b
  | PyInt z => negb (z =? 0)%Z
  | PyStr s => negb (s =? "")%string
  end.

(** [x == y]; a bool compares as the integer 0 or 1. *)
Definition py_eq (x y : pyval) : bool :=
  match x, y with
  | PyNone, PyNone => true
  | PyBool a, PyBool b => Bool.eqb a b
  | PyBool a, PyInt z => (Z.b2z a =? z)%Z
  | PyInt z, PyBool a => (z =? Z.b2z a)%Z
  | PyInt a, PyInt b => (a =? b)%Z
  | PyStr a, PyStr b => (a =? b)%string
  | _, _ => false
  end.

(** [x in l] for a list [l]. *)
Definition py_in (x : pyval) (l : list pyval) : bool :=
  existsb (py_eq x) l.

(** [x is None]. *)
Definition is_none (x : pyval) : bool :=
  match x with PyNone => true | _ => false end.

(** [isinstance(x, bool)]. *)
Definition isinstance_bool (x : pyval) : bool :=
  match x with PyBool _ => true | _ => false end.

(** [str(v)], which is what an empty replacement field [{}] interpolates. *)
Definition py_str (v : pyval) : string :=
  match v with
  | PyNone => "None"
  | PyBool true => "True"
  | PyBool false => "False"
  | PyInt z => pretty z
  | PyStr s => s
  end.

(** ** Exceptions and results *)

Inductive exn : Type :=
  | AssertionError (msg : string)
  | FileNotFoundError (msg : string)
  | IsADirectoryError (msg : string)
  | NotADirectoryError (msg : string)
  | OSError (msg : string)
  | UnpicklingError
  | ValueError (msg : string)
  | IndexError (msg : string)
  | AttributeError (msg : string)
  | NotImplementedError (msg : string).

(** [str(e)]. *)
Definition exn_str (e : exn) : string :=
  match e with
  | AssertionError m | FileNotFoundError m | IsADirectoryError m
  | NotADirectoryError m | OSError m
  | ValueError m | IndexError m | AttributeError m | NotImplementedError m => m
  | UnpicklingError => "invalid load key"
  end.

Inductive res (A : Type) : Type :=
  | Ok (a : A)
  | Raise (e : exn).
Arguments Ok {A} a.
Arguments Raise {A} e.

Definition res_map {A B : Type} (f : A -> B) (r : res A) : res B :=
  match r with
  | Ok a => Ok (f a)
  | Raise e => Raise e
  end.

(** ** String primitives *)

(** [template.format] applied to [args], for templates whose replacement
    fields are all the automatically numbered empty field [{}], with the doubled-brace
    escapes; these are the only forms the loader's templates use.  Surplus
    arguments are ignored, a missing one is an [IndexError].  A field with a
    name, index, conversion or format specification is outside the model and
    reported as [NotImplementedError]. *)
Fixpoint str_format (template : string) (args : list pyval) : res string :=
  match template with
  | EmptyString => Ok ""
  | String c rest =>
      if (c =? "{")%char then
        match rest with
        | EmptyString => Raise (ValueError "Single '{' encountered in format string")
        | String c' rest' =>
            if (c' =? "}")%char then
              match args with
              | [] => Raise (IndexError "Replacement index out of range for positional args tuple")
              | a :: args' => res_map (String.append (py_str a)) (str_format rest' args')
              end
            else if (c' =? "{")%char then res_map (String "{") (str_format rest' args)
            else Raise (NotImplementedError "replacement field")
        end
      else if (c =? "}")%char then
        match rest with
        | EmptyString => Raise (ValueError "Single '}' encountered in format string")
        | String c' rest' =>
            if (c' =? "}")%char then res_map (String "}") (str_format rest' args)
            else Raise (ValueError "Single '}' encountered in format string")
        end
      else res_map (String c) (str_format rest args)
  end.

Fixpoint endswith_sep (s : string) : bool :=
  match s with
  | EmptyString => false
  | String c EmptyString => (c =? "/")%char
  | String _ rest => endswith_sep rest
  end.

(** [os.path.join(a, b)] (POSIX). *)
Definition os_path_join (a b : string) : string :=
  if String.prefix "/" b then b
  else if (a =? "")%string || endswith_sep a then a +:+ b
  else a +:+ "/" +:+ b.

Definition hex_digit (n : N) : ascii :=
  match String.get (N.to_nat n) "0123456789abcdef" with
  | Some c => c
  | None => "0"%char
  end.

Fixpoint string_mem (c : ascii) (s : string) : bool :=
  match s with
  | EmptyString => false
  | String d rest => (c =? d)%char || string_mem c rest
  end.

Definition dquote : ascii := ascii_of_nat 34.

(** The code points from 128 to 255 that [str.isprintable] rejects: the C1
    controls, the no-break space and the soft hyphen. *)
Definition unprintable_latin1 (n : N) : bool :=
  ((128 <=? n)%N && (n <=? 160)%N) || (n =? 173)%N.

Definition repr_char (quote c : ascii) : string :=
  let n := N_of_ascii c in
  if (c =? "\")%char then "\\"
  else if (c =? quote)%char then String "\" (String c "")
  else if (n =? 9)%N then "\t"
  else if (n =? 10)%N then "\n"
  else if (n =? 13)%N then "\r"
  else if (n <? 32)%N || (n =? 127)%N || unprintable_latin1 n then
    String "\" (String "x" (String (hex_digit (n / 16)) (String (hex_digit (n mod 16)) "")))
  else String c "".

Fixpoint repr_body (quote : ascii) (s : string) : string :=
  match s with
  | EmptyString => ""
  | String c rest => repr_char quote c +:+ repr_body quote rest
  end.

(** [repr(s)] of a string: single quotes, unless the string holds a single
    quote and no double quote; the backslash, the quote in use and the
    characters that are not printable are escaped. *)
Definition py_repr (s : string) : string :=
  let quote := if string_mem "'" s && negb (string_mem dquote s) then dquote else "'"%char in
  String quote (repr_body quote s +:+ String quote "").

(** ** Path names as the operating system sees them *)

(** Length in bytes of the UTF-8 encoding. *)
Fixpoint utf8_length (s : string) : nat :=
  match s with
  | EmptyString => 0
  | String c rest => ((if (N_of_ascii c <? 128)%N then 1 else 2) + utf8_length rest)%nat
  end.

(** The names between the separators of a path. *)
Fixpoint components (path : string) : list string :=
  match path with
  | EmptyString => [EmptyString]
  | String c rest =>
      if (c =? "/")%char then EmptyString :: components rest
      else match components rest with
           | name :: names => String c name :: names
           | [] => [String c EmptyString]
           end
  end.

(** Limits of the system (Linux): bytes in one name, and in a whole path
    with its terminator. *)
Definition NAME_MAX : nat := 255.
Definition PATH_MAX : nat := 4096.

(** ** Filename keys (static methods, no I/O) *)

Definition get_onehot_filename (corpus scorer normalize : pyval) : res string :=
  str_format "{}-onehot(scorer={}{}).pkl"
    [corpus; scorer; PyStr (if truthy normalize then ", normalized" else "")].

Definition get_d2v_filename (corpus vec_size win_size min_count dm epochs : pyval) : res string :=
  str_format "{}-d2v(vecsize={}, winsize={}, mincount={}, {}, epochs={}).pkl"
    [corpus; vec_size; win_size; min_count; PyStr (if truthy dm then "dm" else "dbow"); epochs].

Definition get_nd2v_filename (corpus normalizer : pyval) : res string :=
  str_format "{}-nd2v(normalizer={}).pkl" [corpus; normalizer].

(** ** Artifacts and the interpreter state *)

Section Artifacts.

(** Matrix entries are never inspected by the loader; their type is left
    open. *)
Variable scalar : Type.

(** A two-dimensional matrix: its [shape] attribute and its entries, row by
    row.  Sparse and dense matrices differ in storage only, which the
    embedding abstracts. *)
Record matrix : Type := Matrix {
  shape : nat * nat;
  rows : list (list scalar)
}.

Definition nrows (m : matrix) : nat := fst (shape m).
Definition ncols (m : matrix) : nat := snd (shape m).

(** The entries agree with the shape. *)
Definition matrix_wf (m : matrix) : Prop :=
  length (rows m) = nrows m /\ Forall (fun r => length r = ncols m) (rows m).

(** Columns of [a] followed by the columns of [b], row by row. *)
Definition stack_columns (a b : matrix) : matrix :=
  Matrix (nrows a, ncols a + ncols b) (zip_with app (rows a) (rows b)).

(** What [pkl.load] can hand back: the artifacts of the loader (sparse
    matrices, two-dimensional arrays, the label vector) and plain values.
    Other objects (arrays of three or more dimensions, lists) are not
    represented. *)
Inductive pyobj : Type :=
  | SparseMatrix (m : matrix)
  | NdArray2 (m : matrix)
  | NdArray1 (v : list scalar)
  | PyValue (v : pyval).

(** A path of the file system resolves to a directory or to a file; a file
    is described by what unpickling its bytes yields ([None]: not a valid
    pickle). *)
Inductive node : Type :=
  | Dir
  | File (pickled : option pyobj).

(** The answer of the system to an attempt to open a path: what the path
    names, or why it names nothing. *)
Inductive resolution : Type :=
  | Found (n : node)
  | Missing
  | NotADirectory
  | NameTooLong
  | EmbeddedNull.

(** A prefix of a path that stops the walk: the map lists it as a file, and
    does not list it, written with the separator, as a directory. *)
Definition blocked (fs : gmap string node) (prefix : string) : bool :=
  match fs !! (prefix +:+ "/") with
  | Some Dir => false
  | _ => match fs !! prefix with
         | Some (File _) => true
         | _ => false
         end
  end.

(** The walk along the names of a path that the map does not list: a name
    over the limit cannot be looked up, and a name cannot be looked up in a
    file. *)
Fixpoint walk (fs : gmap string node) (prefix : string) (names : list string)
  : resolution :=
  match names with
  | [] => Missing
  | name :: rest =>
      if (NAME_MAX <? utf8_length name)%nat then NameTooLong
      else match rest with
           | [] => Missing
           | _ :: _ =>
               if blocked fs (prefix +:+ name) then NotADirectory
               else walk fs (prefix +:+ name +:+ "/") rest
           end
  end.

(** A path that the map lists names what the map says.  A path that it
    does not list does not exist; the attempt to open it is refused for a NUL
    character (by the interpreter, before the system is asked), for its
    length, for a name that is too long or that is looked up in a file, and
    is otherwise answered with "no such file or directory". *)
Definition resolve (fs : gmap string node) (path : string) : resolution :=
  match fs !! path with
  | Some n => Found n
  | None =>
      if string_mem Ascii.zero path then EmbeddedNull
      else if (PATH_MAX <=? utf8_length path)%nat then NameTooLong
      else walk fs "" (components path)
  end.

(** The state a method runs in: the file system, the attribute store of the
    loader instance ([self.parent_dir], unset before construction), what was
    printed, and the paths handed to [open]. *)
Record world : Type := World {
  fs : gmap string node;
  parent_dir : option string;
  stdout : list string;
  opened : list string
}.

(** ** The monad of methods: state passing with exceptions *)

Definition M (A : Type) : Type := world -> res A * world.

Definition ret {A : Type} (a : A) : M A := fun w => (Ok a, w).

Definition raise {A : Type} (e : exn) : M A := fun w => (Raise e, w).

Definition bind {A B : Type} (m : M A) (k : A -> M B) : M B :=
  fun w =>
    match m w with
    | (Ok a, w') => k a w'
    | (Raise e, w') => (Raise e, w')
    end.

(** A pure computation that may raise. *)
Definition lift {A : Type} (r : res A) : M A := fun w => (r, w).

(** [try: body except ...: handler]. *)
Definition try_except {A : Type} (body : M A) (handler : exn -> M A) : M A :=
  fun w =>
    match body w with
    | (Ok a, w') => (Ok a, w')
    | (Raise e, w') => handler e w'
    end.

(** [assert cond, msg]; the message is evaluated only on failure. *)
Definition py_assert (cond : bool) (msg : res string) : M unit :=
  if cond then ret tt
  else bind (lift msg) (fun m => raise (AssertionError m)).

(** [print(s)]. *)
Definition print (s : string) : M unit :=
  fun w => (Ok tt, World (fs w) (parent_dir w) (stdout w ++ [s]) (opened w)).

(** [os.path.isdir(path)]. *)
Definition os_path_isdir (path : string) : M bool :=
  fun w => (Ok (match fs w !! path with Some Dir => true | _ => false end), w).

(** [open(path, "rb")], yielding the file's pickled content. *)
Definition open_rb (path : string) : M (option pyobj) :=
  fun w =>
    let w' := World (fs w) (parent_dir w) (stdout w) (opened w ++ [path]) in
    match resolve (fs w) path with
    | Missing =>
        (Raise (FileNotFoundError
                  ("[Errno 2] No such file or directory: " +:+ py_repr path)), w')
    | Found Dir =>
        (Raise (IsADirectoryError ("[Errno 21] Is a directory: " +:+ py_repr path)), w')
    | Found (File content) => (Ok content, w')
    | NotADirectory =>
        (Raise (NotADirectoryError ("[Errno 20] Not a directory: " +:+ py_repr path)), w')
    | NameTooLong =>
        (Raise (OSError ("[Errno 36] File name too long: " +:+ py_repr path)), w')
    | EmbeddedNull => (Raise (ValueError "embedded null byte"), w')
    end.

(** [pkl.load(f)]. *)
Definition pkl_load (content : option pyobj) : M pyobj :=
  match content with
  | Some item => ret item
  | None => raise UnpicklingError
  end.

(** [self.parent_dir]. *)
Definition self_parent_dir : M string :=
  fun w =>
    match parent_dir w with
    | Some d => (Ok d, w)
    | None =>
        (Raise (AttributeError "'EmbeddingLoader' object has no attribute 'parent_dir'"), w)
    end.

(** [self.parent_dir = d]. *)
Definition set_parent_dir (d : string) : M unit :=
  fun w => (Ok tt, World (fs w) (Some d) (stdout w) (opened w)).

End Artifacts.

Arguments Matrix {scalar} shape rows.
Arguments shape {scalar} m.
Arguments rows {scalar} m.
Arguments nrows {scalar} m.
Arguments ncols {scalar} m.
Arguments matrix_wf {scalar} m.
Arguments stack_columns {scalar} a b.
Arguments SparseMatrix {scalar} m.
Arguments NdArray2 {scalar} m.
Arguments NdArray1 {scalar} v.
Arguments PyValue {scalar} v.
Arguments Dir {scalar}.
Arguments File {scalar} pickled.
Arguments Found {scalar} n.
Arguments Missing {scalar}.
Arguments NotADirectory {scalar}.
Arguments NameTooLong {scalar}.
Arguments EmbeddedNull {scalar}.
Arguments blocked {scalar} fs prefix.
Arguments walk {scalar} fs prefix names.
Arguments resolve {scalar} fs path.
Arguments World {scalar} fs parent_dir stdout opened.
Arguments fs {scalar} w.
Arguments parent_dir {scalar} w.
Arguments stdout {scalar} w.
Arguments opened {scalar} w.
Arguments ret {scalar A} a w.
Arguments raise {scalar A} e w.
Arguments bind {scalar A B} m k w.
Arguments lift {scalar A} r w.
Arguments try_except {scalar A} body handler w.
Arguments py_assert {scalar} cond msg.
Arguments print {scalar} s w.
Arguments os_path_isdir {scalar} path w.
Arguments open_rb {scalar} path w.
Arguments pkl_load {scalar} content.
Arguments self_parent_dir {scalar} w.
Arguments set_parent_dir {scalar} d w.

Declare Scope py_scope.
Delimit Scope py_scope with py.
Notation "'let*' x ':=' m 'in' k" := (bind m (fun x => k))
  (at level 10, x name, m at level 100, k at level 200) : py_scope.
Notation "m ;; k" := (bind m (fun _ => k))
  (at level 100, k at level 200, right associativity) : py_scope.

(** ** The loader *)

Definition corpus_domain : list pyval := [PyStr "title"; PyStr "text"; PyStr "concat"].
Definition stored_corpora : list pyval := [PyStr "title"; PyStr "text"].

(** Nesting depth of the loads a corpus selector triggers: a selector that
    is not stored on disk delegates to the stored ones. *)
Definition corpus_depth (corpus : pyval) : nat :=
  if py_in corpus stored_corpora then 0 else 1.

Section Loader.

Context {scalar : Type}.

(** Result of [scipy.sparse.hstack] when a block is not a sparse matrix;
    the loader's contract does not cover it, so it is left open. *)
Variable hstack_foreign : pyobj scalar -> pyobj scalar -> res (pyobj scalar).

(** [scipy.sparse.hstack([a, b])], by the library's contract on sparse
    blocks: blocks of equal row count are stacked into a sparse matrix whose
    columns are those of [a] followed by those of [b]; blocks of differing
    row counts are rejected by the library's shape check. *)
Definition hstack (a b : pyobj scalar) : res (pyobj scalar) :=
  match a, b with
  | SparseMatrix x, SparseMatrix y =>
      if (nrows x =? nrows y)%nat then Ok (SparseMatrix (stack_columns x y))
      else Raise (ValueError "blocks[0,:] has incompatible row dimensions")
  | _, _ => hstack_foreign a b
  end.

(** [np.concatenate((a, b), axis=1)], by the library's contract:
    two-dimensional arrays of equal row count are joined along the feature
    axis; every other pair of operands of the universe is rejected (numpy's
    [AxisError] is a [ValueError]). *)
Definition np_concatenate_axis1 (a b : pyobj scalar) : res (pyobj scalar) :=
  match a, b with
  | NdArray2 x, NdArray2 y =>
      if (nrows x =? nrows y)%nat then Ok (NdArray2 (stack_columns x y))
      else Raise (ValueError
        "all the input array dimensions except for the concatenation axis must match exactly")
  | NdArray1 _, NdArray1 _ =>
      Raise (ValueError "axis 1 is out of bounds for array of dimension 1")
  | NdArray1 _, NdArray2 _ | NdArray2 _, NdArray1 _ =>
      Raise (ValueError "all the input arrays must have same number of dimensions")
  | _, _ => Raise (ValueError "zero-dimensional arrays cannot be concatenated")
  end.

Local Open Scope py_scope.

(** [EmbeddingLoader.__init__(self, parent_dir)]. *)
Definition __init__ (parent_dir : string) : M scalar unit :=
  let* isdir := os_path_isdir parent_dir in
  py_assert isdir (str_format "{} is not a valid directory" [PyStr parent_dir]);;
  set_parent_dir parent_dir.

(** [EmbeddingLoader.get_file(path)]. *)
Definition get_file (path : string) : M scalar (pyobj scalar) :=
  let* item :=
    try_except
      (let* f := open_rb path in
       pkl_load f)
      (fun e =>
         match e with
         | FileNotFoundError _ =>
             (let* line :=
                lift (str_format "unable to load {}, see stack trace below" [PyStr path]) in
              print line);;
             (let* line :=
                lift (str_format "double check that you have the file saved {}" [PyStr path]) in
              print line);;
             print (exn_str e);;
             let* msg := lift (str_format "{}" [PyStr path]) in
             raise (FileNotFoundError msg)
         | _ => raise e
         end) in
  ret item.

(** [EmbeddingLoader.get_onehot(self, corpus, scorer, normalize)]. *)
Equations? get_onehot (corpus scorer normalize : pyval) : M scalar (pyobj scalar)
  by wf (corpus_depth corpus) lt :=
get_onehot corpus scorer normalize :=
  py_assert (py_in corpus corpus_domain)
    (Ok "`corpus` must be either 'title', 'text', or 'concat'");;
  py_assert (py_in scorer [PyStr "count"; PyStr "tfidf"])
    (Ok "`scorer` must be either 'count' or 'tfidf'");;
  py_assert (isinstance_bool normalize) (Ok "`normalize` must be a bool");;
  match Sumbool.sumbool_of_bool (py_in corpus stored_corpora) with
  | left _ =>
      let* filename := lift (get_onehot_filename corpus scorer normalize) in
      let* dir := self_parent_dir in
      get_file (os_path_join dir filename)
  | right _ =>
      let* title := get_onehot (PyStr "title") scorer normalize in
      let* text := get_onehot (PyStr "text") scorer normalize in
      lift (hstack title text)
  end.
Proof.
  all: match goal with
       | H : _ = false |- _ => change (py_in corpus stored_corpora = false) in H;
                               unfold corpus_depth; rewrite H; cbn; lia
       end.
Qed.

(** [EmbeddingLoader.get_d2v(self, corpus, vec_size, win_size, min_count, dm, epochs)]. *)
Equations? get_d2v (corpus vec_size win_size min_count dm epochs : pyval)
  : M scalar (pyobj scalar) by wf (corpus_depth corpus) lt :=
get_d2v corpus vec_size win_size min_count dm epochs :=
  py_assert (py_in corpus corpus_domain)
    (Ok "`corpus` must be either 'title', 'text', or 'concat'");;
  match Sumbool.sumbool_of_bool (py_in corpus stored_corpora) with
  | left _ =>
      let* filename :=
        lift (get_d2v_filename corpus vec_size win_size min_count dm epochs) in
      let* dir := self_parent_dir in
      get_file (os_path_join dir filename)
  | right _ =>
      let* title := get_d2v (PyStr "title") vec_size win_size min_count dm epochs in
      let* text := get_d2v (PyStr "text") vec_size win_size min_count dm epochs in
      lift (np_concatenate_axis1 title text)
  end.
Proof.
  all: match goal with
       | H : _ = false |- _ => change (py_in corpus stored_corpora = false) in H;
                               unfold corpus_depth; rewrite H; cbn; lia
       end.
Qed.

(** [EmbeddingLoader.get_nd2v(self, corpus, normalizer)]. *)
Equations? get_nd2v (corpus normalizer : pyval) : M scalar (pyobj scalar)
  by wf (corpus_depth corpus) lt :=
get_nd2v corpus normalizer :=
  py_assert (py_in corpus corpus_domain)
    (Ok "`corpus` must be either 'title', 'text', or 'concat'");;
  py_assert (is_none normalizer || py_in normalizer [PyStr "l2"; PyStr "mean"])
    (Ok "`normalizer` must be 'l2', 'mean' or None");;
  match Sumbool.sumbool_of_bool (py_in corpus stored_corpora) with
  | left _ =>
      let* filename := lift (get_nd2v_filename corpus normalizer) in
      let* dir := self_parent_dir in
      get_file (os_path_join dir filename)
  | right _ =>
      let* title := get_nd2v (PyStr "title") normalizer in
      let* text := get_nd2v (PyStr "text") normalizer in
      lift (np_concatenate_axis1 title text)
  end.
Proof.
  all: match goal with
       | H : _ = false |- _ => change (py_in corpus stored_corpora = false) in H;
                               unfold corpus_depth; rewrite H; cbn; lia
       end.
Qed.

(** [EmbeddingLoader.get_label(self)]. *)
Definition get_label : M scalar (pyobj scalar) :=
  let* dir := self_parent_dir in
  get_file (os_path_join dir "label.pkl").

(** ** Observations on a run *)

(** The state after [get_file] has failed to find [path]: the path was
    handed to [open] once and the three diagnostic lines were printed. *)
Definition not_found_world (path : string) (w : world scalar) : world scalar :=
  World (fs w) (parent_dir w)
    (stdout w ++ ["unable to load " +:+ path +:+ ", see stack trace below";
                  "double check that you have the file saved " +:+ path;
                  "[Errno 2] No such file or directory: " +:+ py_repr path])
    (opened w ++ [path]).

(** Two states with the same files and the same loader attribute. *)
Definition same_files (w w' : world scalar) : Prop :=
  fs w' = fs w /\ parent_dir w' = parent_dir w.

(** A method that leaves the files and the loader as they are, and whose
    outcome depends on nothing else. *)
Definition reads_only {A : Type} (m : M scalar A) : Prop :=
  forall w,
    same_files w (snd (m w))
    /\ forall w', same_files w w' -> fst (m w') = fst (m w).

(** The four loads of a loader, each with its parameters. *)
Definition all_loads
    (corpus scorer normalize vec_size win_size min_count dm epochs normalizer : pyval)
  : list (M scalar (pyobj scalar)) :=
  [get_onehot corpus scorer normalize;
   get_d2v corpus vec_size win_size min_count dm epochs;
   get_nd2v corpus normalizer;
   get_label].

(** The state after [path] was handed to [open] and resolved. *)
Definition after_open (path : string) (w : world scalar) : world scalar :=
  World (fs w) (parent_dir w) (stdout w) (opened w ++ [path]).

(** ** The script *)

(** The body run under [if __name__ == '__main__']; the calls take the
    defaults of the parameters they leave out. *)
Definition main : M scalar unit :=
  __init__ "embeddings/";;
  let* d2v := get_d2v (PyStr "concat") (PyInt 300) (PyInt 13) (PyInt 5) (PyBool false)
                (PyInt 100) in
  let* nd2v := get_nd2v (PyStr "concat") PyNone in
  let* onehot := get_onehot (PyStr "concat") (PyStr "count") (PyBool false) in
  ret tt.

End Loader.

(** Whether an outcome is a returned value. *)
Definition is_ok {A : Type} (r : res A) : bool :=
  match r with
  | Ok _ => true
  | Raise _ => false
  end.

(** ** Characters of a printed integer *)

(** A decimal digit or the minus sign. *)
Definition numeral_char (c : ascii) : bool :=
  string_mem c "0123456789-".

Fixpoint numeral (s : string) : bool :=
  match s with
  | EmptyString => true
  | String c rest => numeral_char c && numeral rest
  end.

(** ** A sample directory *)

Definition sample_title : matrix Z := Matrix (2, 2) [[1; 2]; [3; 4]]%Z.
Definition sample_text : matrix Z := Matrix (2, 1) [[5]; [6]]%Z.
Definition sample_short : matrix Z := Matrix (1, 1) [[7]]%Z.

Definition sample_foreign (a b : pyobj Z) : res (pyobj Z) :=
  Raise (ValueError "blocks must be sparse").

Definition sample_fs : gmap string (node Z) :=
  list_to_map
    [("embeddings", Dir);
     ("embeddings/title-onehot(scorer=count).pkl", File (Some (SparseMatrix sample_title)));
     ("embeddings/text-onehot(scorer=count).pkl", File (Some (SparseMatrix sample_text)));
     ("embeddings/title-onehot(scorer=tfidf).pkl", File (Some (SparseMatrix sample_title)));
     ("embeddings/text-onehot(scorer=tfidf).pkl", File (Some (SparseMatrix sample_short)));
     ("embeddings/title-d2v(vecsize=300, winsize=13, mincount=5, dbow, epochs=100).pkl",
      File (Some (NdArray2 sample_title)));
     ("embeddings/text-d2v(vecsize=300, winsize=13, mincount=5, dbow, epochs=100).pkl",
      File (Some (NdArray2 sample_text)));
     ("embeddings/title-d2v(vecsize=300, winsize=13, mincount=25, dbow, epochs=100).pkl",
      File (Some (NdArray2 sample_title)));
     ("embeddings/text-d2v(vecsize=300, winsize=13, mincount=25, dbow, epochs=100).pkl",
      File (Some (NdArray2 sample_short)));
     ("embeddings/title-nd2v(normalizer=None).pkl", File (Some (NdArray2 sample_title)));
     ("embeddings/text-nd2v(normalizer=None).pkl", File (Some (NdArray2 sample_text)));
     ("embeddings/title-nd2v(normalizer=l2).pkl", File (Some (NdArray2 sample_title)));
     ("embeddings/text-nd2v(normalizer=l2).pkl", File (Some (NdArray2 sample_short)));
     ("embeddings/label.pkl", File (Some (NdArray1 [0; 1]%Z)))].

(** Before and after [EmbeddingLoader("embeddings")]. *)
Definition sample_fresh : world Z := World sample_fs None [] [].
Definition sample_world : world Z := World sample_fs (Some "embeddings") [] [].

(** [sample_world] after the given paths were opened. *)
Definition sample_after (paths : list string) : world Z :=
  World sample_fs (Some "embeddings") [] paths.

(** [sample_world] with a label file that does not unpickle. *)
Definition sample_damaged : world Z :=
  World (<["embeddings/label.pkl" := File None]> sample_fs) (Some "embeddings") [] [].

(** The sample directory as the script names it, before construction. *)
Definition sample_script_world : world Z :=
  World (<["embeddings/" := Dir]> sample_fs) None [] [].

(** * Properties *)

(** ** The primitives on small inputs *)

Example os_path_join_plain : os_path_join "embeddings" "label.pkl" = "embeddings/label.pkl".
Proof. reflexivity. Qed.

Example os_path_join_trailing_sep :
  os_path_join "embeddings/" "label.pkl" = "embeddings/label.pkl".
Proof. reflexivity. Qed.

Example os_path_join_absolute : os_path_join "embeddings" "/tmp/x.pkl" = "/tmp/x.pkl".
Proof. reflexivity. Qed.

Example py_repr_plain : py_repr "a/b.pkl" = "'a/b.pkl'".
Proof. reflexivity. Qed.

Example py_repr_no_break_space :
  py_repr (String "a" (String (ascii_of_nat 160) (String (ascii_of_nat 233) "")))
  = String "'" (String "a" ("\xa0" +:+ String (ascii_of_nat 233) "'")).
Proof. reflexivity. Qed.

Example components_nested : components "a/b.pkl/c" = ["a"; "b.pkl"; "c"].
Proof. reflexivity. Qed.

Example utf8_length_accent : utf8_length (String "a" (String (ascii_of_nat 233) "")) = 3.
Proof. reflexivity. Qed.

Example str_format_surplus : str_format "{}-{}" [PyInt 3; PyNone; PyBool true] = Ok "3-None".
Proof. vm_compute. reflexivity. Qed.

Example str_format_missing :
  str_format "{}-{}" [PyInt 3]
  = Raise (IndexError "Replacement index out of range for positional args tuple").
Proof. vm_compute. reflexivity. Qed.

Example py_in_bool_is_int : py_in (PyBool true) [PyInt 0; PyInt 1] = true.
Proof. reflexivity. Qed.

(** ** Filename keys *)

(** C2: the one-hot key is [{corpus}-onehot(scorer={scorer}).pkl] when
    [normalize] is false and [{corpus}-onehot(scorer={scorer}, normalized).pkl]
    when it is true, for every corpus and scorer; the two documented keys
    are instances. *)
Theorem get_onehot_filename_key :
  (forall corpus scorer : pyval,
      get_onehot_filename corpus scorer (PyBool false)
      = Ok (py_str corpus +:+ "-onehot(scorer=" +:+ py_str scorer +:+ ").pkl")
      /\ get_onehot_filename corpus scorer (PyBool true)
         = Ok (py_str corpus +:+ "-onehot(scorer=" +:+ py_str scorer +:+ ", normalized).pkl"))
  /\ get_onehot_filename (PyStr "title") (PyStr "count") (PyBool false)
     = Ok "title-onehot(scorer=count).pkl"
  /\ get_onehot_filename (PyStr "title") (PyStr "tfidf") (PyBool true)
     = Ok "title-onehot(scorer=tfidf, normalized).pkl".
Proof.
  split; [intros corpus scorer; split; reflexivity | split; reflexivity].
Qed.

(** C3: the Doc2Vec key is
    [{corpus}-d2v(vecsize={vec_size}, winsize={win_size}, mincount={min_count}, {dm|dbow}, epochs={epochs}).pkl]
    with the mode segment [dm] when [dm] is true and [dbow] when it is false;
    the documented key for the defaults on the text corpus is an instance. *)
Theorem get_d2v_filename_key :
  (forall (corpus vec_size win_size min_count epochs : pyval) (dm : bool),
      get_d2v_filename corpus vec_size win_size min_count (PyBool dm) epochs
      = Ok (py_str corpus +:+ "-d2v(vecsize=" +:+ py_str vec_size
            +:+ ", winsize=" +:+ py_str win_size
            +:+ ", mincount=" +:+ py_str min_count
            +:+ ", " +:+ (if dm then "dm" else "dbow")
            +:+ ", epochs=" +:+ py_str epochs +:+ ").pkl"))
  /\ get_d2v_filename (PyStr "text") (PyInt 300) (PyInt 13) (PyInt 5) (PyBool false) (PyInt 100)
     = Ok "text-d2v(vecsize=300, winsize=13, mincount=5, dbow, epochs=100).pkl"
  /\ get_d2v_filename (PyStr "text") (PyInt 300) (PyInt 13) (PyInt 5) (PyBool true) (PyInt 100)
     = Ok "text-d2v(vecsize=300, winsize=13, mincount=5, dm, epochs=100).pkl".
Proof.
  split; [intros corpus vec_size win_size min_count epochs dm; reflexivity | ].
  split; vm_compute; reflexivity.
Qed.

(** C4: the naive Doc2Vec key is [{corpus}-nd2v(normalizer={normalizer}).pkl],
    an unset normalizer being written [None]. *)
Theorem get_nd2v_filename_key :
  (forall corpus normalizer : pyval,
      get_nd2v_filename corpus normalizer
      = Ok (py_str corpus +:+ "-nd2v(normalizer=" +:+ py_str normalizer +:+ ").pkl"))
  /\ (forall corpus : pyval,
        get_nd2v_filename corpus PyNone
        = Ok (py_str corpus +:+ "-nd2v(normalizer=None).pkl"))
  /\ get_nd2v_filename (PyStr "title") PyNone = Ok "title-nd2v(normalizer=None).pkl".
Proof.
  split; [intros; reflexivity | split; [intros; reflexivity | reflexivity]].
Qed.

Section Properties.

Context {scalar : Type}.
Variable hstack_foreign : pyobj scalar -> pyobj scalar -> res (pyobj scalar).

Implicit Types (w : world scalar) (corpus scorer normalize normalizer : pyval).

Local Open Scope py_scope.

(** ** Membership tests on lists of strings *)

Lemma append_empty_r (s : string) : s +:+ "" = s.
Proof.
  induction s as [|c s IH]; [reflexivity|].
  change (String c (s +:+ "") = String c s). now rewrite IH.
Qed.

Lemma py_eq_str corpus (s : string) : py_eq corpus (PyStr s) = true <-> corpus = PyStr s.
Proof.
  destruct corpus as [|b|z|t]; cbn; try (split; [discriminate | discriminate]).
  rewrite String.eqb_eq. split; [now intros -> | now intros [= ->]].
Qed.

Lemma py_in_corpus_domain corpus :
  py_in corpus corpus_domain = true <-> corpus ∈ corpus_domain.
Proof.
  unfold corpus_domain, py_in; cbn.
  rewrite !orb_true_iff, !py_eq_str, !elem_of_cons, elem_of_nil.
  intuition discriminate.
Qed.

Lemma py_in_stored_corpora corpus :
  py_in corpus stored_corpora = true <-> corpus ∈ stored_corpora.
Proof.
  unfold stored_corpora, py_in; cbn.
  rewrite !orb_true_iff, !py_eq_str, !elem_of_cons, elem_of_nil.
  intuition discriminate.
Qed.

Lemma py_in_scorers scorer :
  py_in scorer [PyStr "count"; PyStr "tfidf"] = true
  <-> scorer ∈ [PyStr "count"; PyStr "tfidf"].
Proof.
  unfold py_in; cbn.
  rewrite !orb_true_iff, !py_eq_str, !elem_of_cons, elem_of_nil.
  intuition discriminate.
Qed.

Lemma py_in_normalizers normalizer :
  is_none normalizer || py_in normalizer [PyStr "l2"; PyStr "mean"] = true
  <-> normalizer ∈ [PyNone; PyStr "l2"; PyStr "mean"].
Proof.
  unfold py_in; cbn.
  rewrite !orb_true_iff, !py_eq_str, !elem_of_cons, elem_of_nil.
  destruct normalizer; cbn; intuition discriminate.
Qed.

Lemma stored_in_domain corpus : corpus ∈ stored_corpora -> corpus ∈ corpus_domain.
Proof.
  unfold stored_corpora, corpus_domain.
  rewrite !elem_of_cons, !elem_of_nil. tauto.
Qed.

Lemma title_stored : PyStr "title" ∈ stored_corpora.
Proof. apply py_in_stored_corpora. reflexivity. Qed.

Lemma text_stored : PyStr "text" ∈ stored_corpora.
Proof. apply py_in_stored_corpora. reflexivity. Qed.

Lemma not_true_false (b : bool) (P : Prop) : (b = true <-> P) -> ~ P -> b = false.
Proof. destruct b; intuition. Qed.

Lemma isinstance_bool_spec normalize :
  isinstance_bool normalize = true <-> exists b, normalize = PyBool b.
Proof.
  destruct normalize; cbn; split; try discriminate; eauto.
  all: intros [b' [=]].
Qed.

(** ** Stepping through a method body *)

Lemma bind_ok {A B : Type} (m : M scalar A) (k : A -> M scalar B) w (a : A) w' :
  m w = (Ok a, w') -> bind m k w = k a w'.
Proof. unfold bind. now intros ->. Qed.

Lemma bind_raise {A B : Type} (m : M scalar A) (k : A -> M scalar B) w (e : exn) w' :
  m w = (Raise e, w') -> bind m k w = (Raise e, w').
Proof. unfold bind. now intros ->. Qed.

Lemma assert_holds {B : Type} (cond : bool) (msg : res string) (k : unit -> M scalar B) w :
  cond = true -> bind (py_assert cond msg) k w = k tt w.
Proof. now intros ->. Qed.

Lemma assert_fails {B : Type} (cond : bool) (msg : string) (k : unit -> M scalar B) w :
  cond = false -> bind (py_assert cond (Ok msg)) k w = (Raise (AssertionError msg), w).
Proof. now intros ->. Qed.

(** ** Construction *)

(** C8: constructing the loader on a path that is not an existing directory
    fails with the assertion's message and changes nothing; on an existing
    directory it succeeds and its only effect is to store that path. *)
Theorem init_validates_directory (dir : string) w :
  (fs w !! dir <> Some Dir ->
     __init__ dir w = (Raise (AssertionError (dir +:+ " is not a valid directory")), w))
  /\ (fs w !! dir = Some Dir ->
        __init__ dir w = (Ok tt, World (fs w) (Some dir) (stdout w) (opened w))).
Proof.
  unfold __init__, bind, os_path_isdir. split; intros H.
  - destruct (fs w !! dir) as [[|content]|]; [congruence | reflexivity | reflexivity].
  - rewrite H. reflexivity.
Qed.

(** ** Validation *)

(** C5: a corpus outside the three selectors makes every load fail on its
    assertion with the state untouched, so no file was opened and nothing
    printed; so do a scorer outside ["count"], ["tfidf"] or a [normalize]
    that is not a bool for the one-hot load, and a normalizer outside
    [None], ["l2"], ["mean"] for the naive Doc2Vec load. *)
Theorem invalid_parameters_fail_before_io w :
  (forall corpus scorer normalize,
      corpus ∉ corpus_domain
      \/ scorer ∉ [PyStr "count"; PyStr "tfidf"]
      \/ (forall b, normalize <> PyBool b) ->
      exists msg,
        get_onehot hstack_foreign corpus scorer normalize w = (Raise (AssertionError msg), w))
  /\ (forall corpus vec_size win_size min_count dm epochs,
        corpus ∉ corpus_domain ->
        exists msg,
          get_d2v corpus vec_size win_size min_count dm epochs w
          = (Raise (AssertionError msg), w))
  /\ (forall corpus normalizer,
        corpus ∉ corpus_domain
        \/ normalizer ∉ [PyNone; PyStr "l2"; PyStr "mean"] ->
        exists msg, get_nd2v corpus normalizer w = (Raise (AssertionError msg), w)).
Proof.
  split; [|split].
  - intros corpus scorer normalize H.
    rewrite get_onehot_equation_1.
    destruct (py_in corpus corpus_domain) eqn:Hc;
      [rewrite assert_holds by done | rewrite assert_fails by done; eauto].
    destruct (py_in scorer [PyStr "count"; PyStr "tfidf"]) eqn:Hs;
      [rewrite assert_holds by done | rewrite assert_fails by done; eauto].
    destruct (isinstance_bool normalize) eqn:Hn;
      [rewrite assert_holds by done | rewrite assert_fails by done; eauto].
    exfalso. apply py_in_corpus_domain in Hc. apply py_in_scorers in Hs.
    apply isinstance_bool_spec in Hn as [b ->].
    destruct H as [H|[H|H]]; [tauto | tauto | exact (H b eq_refl)].
  - intros corpus vec_size win_size min_count dm epochs H.
    rewrite get_d2v_equation_1.
    rewrite assert_fails by exact (not_true_false _ _ (py_in_corpus_domain corpus) H).
    eauto.
  - intros corpus normalizer H.
    rewrite get_nd2v_equation_1.
    destruct (py_in corpus corpus_domain) eqn:Hc;
      [rewrite assert_holds by done | rewrite assert_fails by done; eauto].
    destruct (is_none normalizer || py_in normalizer [PyStr "l2"; PyStr "mean"]) eqn:Hn;
      [rewrite assert_holds by done | rewrite assert_fails by done; eauto].
    exfalso. apply py_in_corpus_domain in Hc. apply py_in_normalizers in Hn.
    destruct H as [H|H]; tauto.
Qed.

(** ** The two branches of a load *)

Lemma get_onehot_stored corpus scorer normalize w :
  corpus ∈ stored_corpora ->
  scorer ∈ [PyStr "count"; PyStr "tfidf"] ->
  isinstance_bool normalize = true ->
  get_onehot hstack_foreign corpus scorer normalize w
  = (let* dir := self_parent_dir in
     get_file (os_path_join dir
       (py_str corpus +:+ "-onehot(scorer=" +:+ py_str scorer
        +:+ (if truthy normalize then ", normalized" else "") +:+ ").pkl"))) w.
Proof.
  intros Hc Hs Hn. rewrite get_onehot_equation_1.
  apply py_in_scorers in Hs.
  assert (Hd : py_in corpus corpus_domain = true).
  { now apply py_in_corpus_domain, stored_in_domain. }
  apply py_in_stored_corpora in Hc.
  rewrite !assert_holds by assumption.
  destruct (sumbool_of_bool (py_in corpus stored_corpora)) as [_|Hf]; [reflexivity|congruence].
Qed.

Lemma get_onehot_concat scorer normalize w :
  scorer ∈ [PyStr "count"; PyStr "tfidf"] ->
  isinstance_bool normalize = true ->
  get_onehot hstack_foreign (PyStr "concat") scorer normalize w
  = (let* title := get_onehot hstack_foreign (PyStr "title") scorer normalize in
     let* text := get_onehot hstack_foreign (PyStr "text") scorer normalize in
     lift (hstack hstack_foreign title text)) w.
Proof.
  intros Hs Hn. rewrite get_onehot_equation_1.
  apply py_in_scorers in Hs.
  rewrite !assert_holds by (assumption || reflexivity).
  reflexivity.
Qed.

Lemma get_d2v_stored corpus vec_size win_size min_count dm epochs w :
  corpus ∈ stored_corpora ->
  get_d2v corpus vec_size win_size min_count dm epochs w
  = (let* dir := self_parent_dir in
     get_file (os_path_join dir
       (py_str corpus +:+ "-d2v(vecsize=" +:+ py_str vec_size
        +:+ ", winsize=" +:+ py_str win_size
        +:+ ", mincount=" +:+ py_str min_count
        +:+ ", " +:+ (if truthy dm then "dm" else "dbow")
        +:+ ", epochs=" +:+ py_str epochs +:+ ").pkl"))) w.
Proof.
  intros Hc. rewrite get_d2v_equation_1.
  assert (Hd : py_in corpus corpus_domain = true).
  { now apply py_in_corpus_domain, stored_in_domain. }
  apply py_in_stored_corpora in Hc.
  rewrite !assert_holds by assumption.
  destruct (sumbool_of_bool (py_in corpus stored_corpora)) as [_|Hf]; [reflexivity|congruence].
Qed.

Lemma get_d2v_concat vec_size win_size min_count dm epochs w :
  get_d2v (PyStr "concat") vec_size win_size min_count dm epochs w
  = (let* title := get_d2v (PyStr "title") vec_size win_size min_count dm epochs in
     let* text := get_d2v (PyStr "text") vec_size win_size min_count dm epochs in
     lift (np_concatenate_axis1 title text)) w.
Proof.
  rewrite get_d2v_equation_1. rewrite !assert_holds by reflexivity. reflexivity.
Qed.

Lemma get_nd2v_stored corpus normalizer w :
  corpus ∈ stored_corpora ->
  normalizer ∈ [PyNone; PyStr "l2"; PyStr "mean"] ->
  get_nd2v corpus normalizer w
  = (let* dir := self_parent_dir in
     get_file (os_path_join dir
       (py_str corpus +:+ "-nd2v(normalizer=" +:+ py_str normalizer +:+ ").pkl"))) w.
Proof.
  intros Hc Hn. rewrite get_nd2v_equation_1.
  apply py_in_normalizers in Hn.
  assert (Hd : py_in corpus corpus_domain = true).
  { now apply py_in_corpus_domain, stored_in_domain. }
  apply py_in_stored_corpora in Hc.
  rewrite !assert_holds by assumption.
  destruct (sumbool_of_bool (py_in corpus stored_corpora)) as [_|Hf]; [reflexivity|congruence].
Qed.

Lemma get_nd2v_concat normalizer w :
  normalizer ∈ [PyNone; PyStr "l2"; PyStr "mean"] ->
  get_nd2v (PyStr "concat") normalizer w
  = (let* title := get_nd2v (PyStr "title") normalizer in
     let* text := get_nd2v (PyStr "text") normalizer in
     lift (np_concatenate_axis1 title text)) w.
Proof.
  intros Hn. rewrite get_nd2v_equation_1.
  apply py_in_normalizers in Hn.
  rewrite !assert_holds by (assumption || reflexivity).
  reflexivity.
Qed.

(** A load that returns has passed its assertions. *)
Lemma get_onehot_ok_valid corpus scorer normalize w (item : pyobj scalar) w' :
  get_onehot hstack_foreign corpus scorer normalize w = (Ok item, w') ->
  scorer ∈ [PyStr "count"; PyStr "tfidf"] /\ isinstance_bool normalize = true.
Proof.
  rewrite get_onehot_equation_1. intros H.
  destruct (py_in corpus corpus_domain) eqn:Hc;
    [rewrite assert_holds in H by done | rewrite assert_fails in H by done; discriminate].
  destruct (py_in scorer [PyStr "count"; PyStr "tfidf"]) eqn:Hs;
    [rewrite assert_holds in H by done | rewrite assert_fails in H by done; discriminate].
  destruct (isinstance_bool normalize) eqn:Hn;
    [|rewrite assert_fails in H by done; discriminate].
  split; [now apply py_in_scorers | reflexivity].
Qed.

Lemma get_nd2v_ok_valid corpus normalizer w (item : pyobj scalar) w' :
  get_nd2v corpus normalizer w = (Ok item, w') ->
  normalizer ∈ [PyNone; PyStr "l2"; PyStr "mean"].
Proof.
  rewrite get_nd2v_equation_1. intros H.
  destruct (py_in corpus corpus_domain) eqn:Hc;
    [rewrite assert_holds in H by done | rewrite assert_fails in H by done; discriminate].
  destruct (is_none normalizer || py_in normalizer [PyStr "l2"; PyStr "mean"]) eqn:Hn;
    [|rewrite assert_fails in H by done; discriminate].
  now apply py_in_normalizers.
Qed.

(** ** Column-wise stacking *)

Lemma stack_columns_wf (a b : matrix scalar) :
  nrows a = nrows b -> matrix_wf a -> matrix_wf b -> matrix_wf (stack_columns a b).
Proof.
  intros Hr [Ha Fa] [Hb Fb]. unfold matrix_wf, stack_columns, nrows, ncols in *. cbn.
  split.
  - rewrite length_zip_with. lia.
  - rewrite Forall_lookup in Fa, Fb |- *. intros i r Hi.
    rewrite lookup_zip_with in Hi.
    destruct (rows a !! i) as [x|] eqn:Hx; [cbn in Hi|discriminate].
    destruct (rows b !! i) as [y|] eqn:Hy; [cbn in Hi|discriminate].
    injection Hi as <-. rewrite length_app, (Fa i x Hx), (Fb i y Hy). reflexivity.
Qed.

Lemma stack_columns_row (a b : matrix scalar) (i : nat) (ra rb : list scalar) :
  rows a !! i = Some ra -> rows b !! i = Some rb ->
  rows (stack_columns a b) !! i = Some (ra ++ rb)%list.
Proof.
  intros Ha Hb. unfold stack_columns. cbn.
  rewrite lookup_zip_with, Ha. cbn. rewrite Hb. reflexivity.
Qed.

(** ** The derived corpus *)

(** C1: for a valid scorer and a boolean [normalize], the one-hot load of
    ["concat"] is the horizontal stack of the load of ["title"] followed by
    the load of ["text"] under the same scorer and [normalize]; when both
    yield sparse matrices of equal row count the result is their sparse
    column-wise stack, whose column count is the sum of theirs and whose row
    count is theirs, and which is well formed when they are.  The Doc2Vec
    and naive Doc2Vec loads of ["concat"] are in the same way the dense
    concatenation along the feature axis, under identical other
    parameters. *)
Theorem concat_is_column_stack w :
  (forall scorer normalize,
      scorer ∈ [PyStr "count"; PyStr "tfidf"] ->
      (exists b, normalize = PyBool b) ->
      get_onehot hstack_foreign (PyStr "concat") scorer normalize w
      = (let* title := get_onehot hstack_foreign (PyStr "title") scorer normalize in
         let* text := get_onehot hstack_foreign (PyStr "text") scorer normalize in
         lift (hstack hstack_foreign title text)) w)
  /\ (forall scorer normalize (a b : matrix scalar) w1 w2,
        get_onehot hstack_foreign (PyStr "title") scorer normalize w
        = (Ok (SparseMatrix a), w1) ->
        get_onehot hstack_foreign (PyStr "text") scorer normalize w1
        = (Ok (SparseMatrix b), w2) ->
        nrows a = nrows b ->
        get_onehot hstack_foreign (PyStr "concat") scorer normalize w
        = (Ok (SparseMatrix (stack_columns a b)), w2)
        /\ ncols (stack_columns a b) = ncols a + ncols b
        /\ nrows (stack_columns a b) = nrows a
        /\ nrows (stack_columns a b) = nrows b
        /\ (matrix_wf a -> matrix_wf b -> matrix_wf (stack_columns a b)))
  /\ (forall vec_size win_size min_count dm epochs,
        get_d2v (PyStr "concat") vec_size win_size min_count dm epochs w
        = (let* title := get_d2v (PyStr "title") vec_size win_size min_count dm epochs in
           let* text := get_d2v (PyStr "text") vec_size win_size min_count dm epochs in
           lift (np_concatenate_axis1 title text)) w)
  /\ (forall vec_size win_size min_count dm epochs (a b : matrix scalar) w1 w2,
        get_d2v (PyStr "title") vec_size win_size min_count dm epochs w
        = (Ok (NdArray2 a), w1) ->
        get_d2v (PyStr "text") vec_size win_size min_count dm epochs w1
        = (Ok (NdArray2 b), w2) ->
        nrows a = nrows b ->
        get_d2v (PyStr "concat") vec_size win_size min_count dm epochs w
        = (Ok (NdArray2 (stack_columns a b)), w2))
  /\ (forall normalizer,
        normalizer ∈ [PyNone; PyStr "l2"; PyStr "mean"] ->
        get_nd2v (PyStr "concat") normalizer w
        = (let* title := get_nd2v (PyStr "title") normalizer in
           let* text := get_nd2v (PyStr "text") normalizer in
           lift (np_concatenate_axis1 title text)) w)
  /\ (forall normalizer (a b : matrix scalar) w1 w2,
        get_nd2v (PyStr "title") normalizer w = (Ok (NdArray2 a), w1) ->
        get_nd2v (PyStr "text") normalizer w1 = (Ok (NdArray2 b), w2) ->
        nrows a = nrows b ->
        get_nd2v (PyStr "concat") normalizer w
        = (Ok (NdArray2 (stack_columns a b)), w2)).
Proof.
  split; [|split; [|split; [|split; [|split]]]].
  - intros scorer normalize Hs [b ->]. now apply get_onehot_concat.
  - intros scorer normalize a b w1 w2 Ht Hx Hr.
    split; [|split; [|split; [|split]]].
    + destruct (get_onehot_ok_valid _ _ _ _ _ _ Ht) as [Hs Hn].
      rewrite get_onehot_concat by assumption.
      rewrite (bind_ok _ _ _ _ _ Ht), (bind_ok _ _ _ _ _ Hx).
      unfold lift, hstack. apply Nat.eqb_eq in Hr. now rewrite Hr.
    + reflexivity.
    + reflexivity.
    + exact Hr.
    + intros Ha Hb. now apply stack_columns_wf.
  - intros. apply get_d2v_concat.
  - intros vec_size win_size min_count dm epochs a b w1 w2 Ht Hx Hr.
    rewrite get_d2v_concat.
    rewrite (bind_ok _ _ _ _ _ Ht), (bind_ok _ _ _ _ _ Hx).
    unfold lift, np_concatenate_axis1. apply Nat.eqb_eq in Hr. now rewrite Hr.
  - intros normalizer Hn. now apply get_nd2v_concat.
  - intros normalizer a b w1 w2 Ht Hx Hr.
    rewrite get_nd2v_concat by exact (get_nd2v_ok_valid _ _ _ _ _ Ht).
    rewrite (bind_ok _ _ _ _ _ Ht), (bind_ok _ _ _ _ _ Hx).
    unfold lift, np_concatenate_axis1. apply Nat.eqb_eq in Hr. now rewrite Hr.
Qed.

(** C6: when the ["title"] and ["text"] artifacts loaded for ["concat"]
    are matrices of differing row counts, the load raises the stacking
    primitive's [ValueError]; no combined matrix is returned. *)
Theorem concat_row_mismatch_fails w :
  (forall scorer normalize (a b : matrix scalar) w1 w2,
      get_onehot hstack_foreign (PyStr "title") scorer normalize w
      = (Ok (SparseMatrix a), w1) ->
      get_onehot hstack_foreign (PyStr "text") scorer normalize w1
      = (Ok (SparseMatrix b), w2) ->
      nrows a <> nrows b ->
      exists msg,
        get_onehot hstack_foreign (PyStr "concat") scorer normalize w
        = (Raise (ValueError msg), w2))
  /\ (forall vec_size win_size min_count dm epochs (a b : matrix scalar) w1 w2,
        get_d2v (PyStr "title") vec_size win_size min_count dm epochs w
        = (Ok (NdArray2 a), w1) ->
        get_d2v (PyStr "text") vec_size win_size min_count dm epochs w1
        = (Ok (NdArray2 b), w2) ->
        nrows a <> nrows b ->
        exists msg,
          get_d2v (PyStr "concat") vec_size win_size min_count dm epochs w
          = (Raise (ValueError msg), w2))
  /\ (forall normalizer (a b : matrix scalar) w1 w2,
        get_nd2v (PyStr "title") normalizer w = (Ok (NdArray2 a), w1) ->
        get_nd2v (PyStr "text") normalizer w1 = (Ok (NdArray2 b), w2) ->
        nrows a <> nrows b ->
        exists msg,
          get_nd2v (PyStr "concat") normalizer w = (Raise (ValueError msg), w2)).
Proof.
  split; [|split].
  - intros scorer normalize a b w1 w2 Ht Hx Hr.
    destruct (get_onehot_ok_valid _ _ _ _ _ _ Ht) as [Hs Hn].
    rewrite get_onehot_concat by assumption.
    rewrite (bind_ok _ _ _ _ _ Ht), (bind_ok _ _ _ _ _ Hx).
    unfold lift, hstack. apply Nat.eqb_neq in Hr. rewrite Hr. eauto.
  - intros vec_size win_size min_count dm epochs a b w1 w2 Ht Hx Hr.
    rewrite get_d2v_concat.
    rewrite (bind_ok _ _ _ _ _ Ht), (bind_ok _ _ _ _ _ Hx).
    unfold lift, np_concatenate_axis1. apply Nat.eqb_neq in Hr. rewrite Hr. eauto.
  - intros normalizer a b w1 w2 Ht Hx Hr.
    rewrite get_nd2v_concat by exact (get_nd2v_ok_valid _ _ _ _ _ Ht).
    rewrite (bind_ok _ _ _ _ _ Ht), (bind_ok _ _ _ _ _ Hx).
    unfold lift, np_concatenate_axis1. apply Nat.eqb_neq in Hr. rewrite Hr. eauto.
Qed.

(** ** Missing files *)

Lemma get_file_missing (path : string) w :
  resolve (fs w) path = Missing ->
  get_file path w = (Raise (FileNotFoundError path), not_found_world path w).
Proof.
  intros H. unfold get_file, try_except, bind, open_rb. rewrite H. cbn.
  rewrite !append_empty_r. unfold not_found_world, raise.
  rewrite <- !app_assoc. reflexivity.
Qed.



(** ** Repeatability *)

Lemma reads_only_ret {A : Type} (a : A) : reads_only (scalar:=scalar) (ret a).
Proof. intros w. split; [split; reflexivity | reflexivity]. Qed.

Lemma reads_only_raise {A : Type} (e : exn) : reads_only (scalar:=scalar) (A:=A) (raise e).
Proof. intros w. split; [split; reflexivity | reflexivity]. Qed.

Lemma reads_only_lift {A : Type} (r : res A) : reads_only (scalar:=scalar) (lift r).
Proof. intros w. split; [split; reflexivity | reflexivity]. Qed.

Lemma reads_only_print (line : string) : reads_only (scalar:=scalar) (print line).
Proof. intros w. split; [split; reflexivity | reflexivity]. Qed.

Lemma reads_only_self_parent_dir : reads_only (scalar:=scalar) self_parent_dir.
Proof.
  intros w. unfold self_parent_dir. split.
  - destruct (parent_dir w); split; reflexivity.
  - intros w' [_ ->]. destruct (parent_dir w); reflexivity.
Qed.

Lemma reads_only_open_rb (path : string) : reads_only (scalar:=scalar) (open_rb path).
Proof.
  intros w. unfold open_rb. split.
  - destruct (resolve (fs w) path) as [[|content]| | | |]; split; reflexivity.
  - intros w' [-> _]. destruct (resolve (fs w) path) as [[|content]| | | |]; reflexivity.
Qed.

Lemma reads_only_pkl_load (content : option (pyobj scalar)) : reads_only (pkl_load content).
Proof. destruct content; [apply reads_only_ret | apply reads_only_raise]. Qed.

Lemma reads_only_bind {A B : Type} (m : M scalar A) (k : A -> M scalar B) :
  reads_only m -> (forall a, reads_only (k a)) -> reads_only (bind m k).
Proof.
  intros Hm Hk w. unfold bind.
  destruct (Hm w) as [[Hf Hp] Hr].
  destruct (m w) as [[a|e] w1] eqn:Hw; cbn in Hf, Hp.
  - destruct (Hk a w1) as [[Hf1 Hp1] Hr1]. split.
    + split; congruence.
    + intros w' Hsame. specialize (Hr w' Hsame).
      destruct (Hm w') as [[Hf' Hp'] _].
      destruct (m w') as [r' w1']. cbn in Hr, Hf', Hp'. subst r'.
      apply Hr1. destruct Hsame. split; congruence.
  - split; [split; assumption|].
    intros w' Hsame. specialize (Hr w' Hsame).
    destruct (m w') as [r' w1']. cbn in Hr. now subst r'.
Qed.

Lemma reads_only_try_except {A : Type} (body : M scalar A) (handler : exn -> M scalar A) :
  reads_only body -> (forall e, reads_only (handler e)) -> reads_only (try_except body handler).
Proof.
  intros Hm Hk w. unfold try_except.
  destruct (Hm w) as [[Hf Hp] Hr].
  destruct (body w) as [[a|e] w1] eqn:Hw; cbn in Hf, Hp.
  - split; [split; assumption|].
    intros w' Hsame. specialize (Hr w' Hsame).
    destruct (body w') as [r' w1']. cbn in Hr. now subst r'.
  - destruct (Hk e w1) as [[Hf1 Hp1] Hr1]. split.
    + split; congruence.
    + intros w' Hsame. specialize (Hr w' Hsame).
      destruct (Hm w') as [[Hf' Hp'] _].
      destruct (body w') as [r' w1']. cbn in Hr, Hf', Hp'. subst r'.
      apply Hr1. destruct Hsame. split; congruence.
Qed.

Lemma reads_only_assert (cond : bool) (msg : res string) :
  reads_only (scalar:=scalar) (py_assert cond msg).
Proof.
  unfold py_assert. destruct cond; [apply reads_only_ret|].
  apply reads_only_bind; [apply reads_only_lift | intros m; apply reads_only_raise].
Qed.

Create HintDb reads_only.
Hint Resolve reads_only_ret reads_only_raise reads_only_lift reads_only_print
  reads_only_self_parent_dir reads_only_open_rb reads_only_pkl_load
  reads_only_assert : reads_only.

Ltac reads_only_steps :=
  repeat first
    [ solve [auto with reads_only]
    | apply reads_only_bind; [|intros ?]
    | apply reads_only_try_except; [|intros ?] ].

Lemma reads_only_get_file (path : string) : reads_only (scalar:=scalar) (get_file path).
Proof.
  unfold get_file. reads_only_steps.
  match goal with e : exn |- _ => destruct e end; reads_only_steps.
Qed.

Hint Resolve reads_only_get_file : reads_only.

Lemma reads_only_get_onehot_stored corpus scorer normalize :
  py_in corpus stored_corpora = true ->
  reads_only (get_onehot hstack_foreign corpus scorer normalize).
Proof.
  intros Hc. rewrite get_onehot_equation_1. reads_only_steps.
  destruct (sumbool_of_bool (py_in corpus stored_corpora)) as [_|Hf]; [|congruence].
  reads_only_steps.
Qed.

Lemma reads_only_get_onehot corpus scorer normalize :
  reads_only (get_onehot hstack_foreign corpus scorer normalize).
Proof.
  rewrite get_onehot_equation_1. reads_only_steps.
  destruct (sumbool_of_bool (py_in corpus stored_corpora)) as [_|_]; reads_only_steps.
  all: now apply reads_only_get_onehot_stored.
Qed.

Lemma reads_only_get_d2v_stored corpus vec_size win_size min_count dm epochs :
  py_in corpus stored_corpora = true ->
  reads_only (scalar:=scalar) (get_d2v corpus vec_size win_size min_count dm epochs).
Proof.
  intros Hc. rewrite get_d2v_equation_1. reads_only_steps.
  destruct (sumbool_of_bool (py_in corpus stored_corpora)) as [_|Hf]; [|congruence].
  reads_only_steps.
Qed.

Lemma reads_only_get_d2v corpus vec_size win_size min_count dm epochs :
  reads_only (scalar:=scalar) (get_d2v corpus vec_size win_size min_count dm epochs).
Proof.
  rewrite get_d2v_equation_1. reads_only_steps.
  destruct (sumbool_of_bool (py_in corpus stored_corpora)) as [_|_]; reads_only_steps.
  all: now apply reads_only_get_d2v_stored.
Qed.

Lemma reads_only_get_nd2v_stored corpus normalizer :
  py_in corpus stored_corpora = true ->
  reads_only (scalar:=scalar) (get_nd2v corpus normalizer).
Proof.
  intros Hc. rewrite get_nd2v_equation_1. reads_only_steps.
  destruct (sumbool_of_bool (py_in corpus stored_corpora)) as [_|Hf]; [|congruence].
  reads_only_steps.
Qed.

Lemma reads_only_get_nd2v corpus normalizer :
  reads_only (scalar:=scalar) (get_nd2v corpus normalizer).
Proof.
  rewrite get_nd2v_equation_1. reads_only_steps.
  destruct (sumbool_of_bool (py_in corpus stored_corpora)) as [_|_]; reads_only_steps.
  all: now apply reads_only_get_nd2v_stored.
Qed.

Lemma reads_only_get_label : reads_only (scalar:=scalar) get_label.
Proof. unfold get_label. reads_only_steps. Qed.

Lemma reads_only_twice {A : Type} (m : M scalar A) w :
  reads_only m -> fst (m (snd (m w))) = fst (m w).
Proof. intros H. destruct (H w) as [Hs Hr]. now apply Hr. Qed.

(** C9: every load leaves the files and the loader's stored directory as
    they were, and its outcome is the same in any two states that agree on
    them; in particular a second call with the same parameters right after
    the first returns the same outcome. *)
Theorem loads_are_repeatable
    corpus scorer normalize vec_size win_size min_count dm epochs normalizer :
  (reads_only (get_onehot hstack_foreign corpus scorer normalize)
   /\ reads_only (scalar:=scalar) (get_d2v corpus vec_size win_size min_count dm epochs)
   /\ reads_only (scalar:=scalar) (get_nd2v corpus normalizer)
   /\ reads_only (scalar:=scalar) get_label)
  /\ forall w,
      (let m := get_onehot hstack_foreign corpus scorer normalize in
       fst (m (snd (m w))) = fst (m w))
      /\ (let m := get_d2v corpus vec_size win_size min_count dm epochs in
          fst (m (snd (m w))) = fst (m w))
      /\ (let m := get_nd2v corpus normalizer in fst (m (snd (m w))) = fst (m w))
      /\ fst (get_label (snd (get_label w))) = fst (get_label w).
Proof.
  pose proof (reads_only_get_onehot corpus scorer normalize) as H1.
  pose proof (reads_only_get_d2v corpus vec_size win_size min_count dm epochs) as H2.
  pose proof (reads_only_get_nd2v corpus normalizer) as H3.
  pose proof reads_only_get_label as H4.
  split; [tauto|].
  intros w. cbv zeta. repeat split; now apply reads_only_twice.
Qed.

(** ** Doc2Vec parameters *)

Lemma get_file_no_assertion (path msg : string) w :
  fst (get_file (scalar:=scalar) path w) <> Raise (AssertionError msg).
Proof.
  unfold get_file, try_except, bind, open_rb.
  destruct (resolve (fs w) path) as [[|[item|]]| | | |]; cbn; discriminate.
Qed.

Lemma get_d2v_stored_no_assertion corpus vec_size win_size min_count dm epochs (msg : string) w :
  corpus ∈ stored_corpora ->
  fst (get_d2v corpus vec_size win_size min_count dm epochs w) <> Raise (AssertionError msg).
Proof.
  intros Hc. rewrite get_d2v_stored by assumption.
  unfold bind, self_parent_dir.
  destruct (parent_dir w); [apply get_file_no_assertion | cbn; discriminate].
Qed.

Lemma np_concatenate_no_assertion (a b : pyobj scalar) (msg : string) :
  np_concatenate_axis1 a b <> Raise (AssertionError msg).
Proof.
  destruct a as [x|x|x|x], b as [y|y|y|y]; cbn; try discriminate.
  destruct (nrows x =? nrows y)%nat; discriminate.
Qed.

(** C10: the Doc2Vec load checks the corpus only.  Whatever values
    [vec_size], [win_size], [min_count], [dm] and [epochs] take, the load of
    a stored corpus is the load of the file whose key interpolates them as
    they print, the mode segment being [dm] exactly when [dm] is truthy, and
    no load with a corpus of the domain raises an assertion; [dm=1] selects
    the same key as [dm=True]. *)
Theorem get_d2v_validates_corpus_only w :
  (forall corpus vec_size win_size min_count dm epochs,
      corpus ∈ stored_corpora ->
      get_d2v corpus vec_size win_size min_count dm epochs w
      = (let* dir := self_parent_dir in
         get_file (os_path_join dir
           (py_str corpus +:+ "-d2v(vecsize=" +:+ py_str vec_size
            +:+ ", winsize=" +:+ py_str win_size
            +:+ ", mincount=" +:+ py_str min_count
            +:+ ", " +:+ (if truthy dm then "dm" else "dbow")
            +:+ ", epochs=" +:+ py_str epochs +:+ ").pkl"))) w)
  /\ (forall corpus vec_size win_size min_count dm epochs (msg : string),
        corpus ∈ corpus_domain ->
        fst (get_d2v corpus vec_size win_size min_count dm epochs w)
        <> Raise (AssertionError msg))
  /\ (forall corpus vec_size win_size min_count dm epochs,
        get_d2v_filename corpus vec_size win_size min_count dm epochs
        = get_d2v_filename corpus vec_size win_size min_count (PyBool (truthy dm)) epochs)
  /\ (forall corpus vec_size win_size min_count epochs,
        get_d2v_filename corpus vec_size win_size min_count (PyInt 1) epochs
        = get_d2v_filename corpus vec_size win_size min_count (PyBool true) epochs).
Proof using Type.
  split; [|split; [|split]].
  - intros corpus vec_size win_size min_count dm epochs Hc. exact (get_d2v_stored _ _ _ _ _ _ w Hc).
  - intros corpus vec_size win_size min_count dm epochs msg Hc.
    apply py_in_corpus_domain in Hc.
    destruct (py_in corpus stored_corpora) eqn:Hs.
    + apply get_d2v_stored_no_assertion. exact (proj1 (py_in_stored_corpora corpus) Hs).
    + assert (corpus = PyStr "concat") as ->.
      { unfold py_in, corpus_domain, stored_corpora in Hc, Hs. cbn in Hc, Hs.
        destruct (py_eq corpus (PyStr "title")); [discriminate|].
        destruct (py_eq corpus (PyStr "text")); [discriminate|].
        cbn in Hc. rewrite orb_false_r in Hc. exact (proj1 (py_eq_str _ _) Hc). }
      rewrite get_d2v_concat. unfold bind.
      pose proof (get_d2v_stored_no_assertion (PyStr "title") vec_size win_size min_count
                    dm epochs msg w title_stored) as Ht.
      destruct (get_d2v (PyStr "title") vec_size win_size min_count dm epochs w)
        as [[title|e] w1]; [|exact Ht].
      pose proof (get_d2v_stored_no_assertion (PyStr "text") vec_size win_size min_count
                    dm epochs msg w1 text_stored) as Hx.
      destruct (get_d2v (PyStr "text") vec_size win_size min_count dm epochs w1)
        as [[text|e] w2]; [|exact Hx].
      cbn. apply np_concatenate_no_assertion.
  - intros corpus vec_size win_size min_count dm epochs. reflexivity.
  - intros corpus vec_size win_size min_count epochs. reflexivity.
Qed.

(** * Further properties of the loader *)

(** ** Reading one file *)

Lemma resolve_listed (n : node scalar) (path : string) w :
  fs w !! path = Some n -> resolve (fs w) path = Found n.
Proof. intros H. unfold resolve. now rewrite H. Qed.

Lemma get_file_found (path : string) (content : option (pyobj scalar)) w :
  fs w !! path = Some (File content) ->
  get_file path w
  = (match content with Some item => Ok item | None => Raise UnpicklingError end,
     after_open path w).
Proof.
  intros H. unfold get_file, try_except, bind, open_rb.
  rewrite (resolve_listed _ _ _ H). destruct content; reflexivity.
Qed.

Lemma get_file_directory (path : string) w :
  fs w !! path = Some Dir ->
  get_file path w
  = (Raise (IsADirectoryError ("[Errno 21] Is a directory: " +:+ py_repr path)),
     after_open path w).
Proof.
  intros H. unfold get_file, try_except, bind, open_rb.
  rewrite (resolve_listed _ _ _ H). reflexivity.
Qed.

(** X1: [get_file] rewraps the not-found error only.  On a path that
    resolves, the file's object is returned as it is, a file that does not
    unpickle raises the unpickling error and a directory raises
    [IsADirectoryError]; in the three cases nothing is printed and the only
    effect is the one [open]. *)
Theorem get_file_existing_path (path : string) w :
  (forall item : pyobj scalar,
      fs w !! path = Some (File (Some item)) ->
      get_file path w = (Ok item, after_open path w))
  /\ (fs w !! path = Some (File None) ->
      get_file path w = (Raise UnpicklingError, after_open path w))
  /\ (fs w !! path = Some Dir ->
      get_file path w
      = (Raise (IsADirectoryError ("[Errno 21] Is a directory: " +:+ py_repr path)),
         after_open path w)).
Proof.
  split; [|split].
  - intros item H. now rewrite (get_file_found _ _ _ H).
  - intros H. now rewrite (get_file_found _ _ _ H).
  - apply get_file_directory.
Qed.


(** The state [get_file] leaves, whatever the outcome. *)
Lemma get_file_state (path : string) w :
  snd (get_file path w)
  = match resolve (fs w) path with
    | Missing => not_found_world path w
    | _ => after_open path w
    end.
Proof.
  destruct (resolve (fs w) path) as [[|content]| | | |] eqn:H;
    [| | now rewrite get_file_missing | | |];
    unfold get_file, try_except, bind, open_rb; rewrite H;
    try destruct content; reflexivity.
Qed.

Lemma get_file_ok_state (path : string) (item : pyobj scalar) w w' :
  get_file path w = (Ok item, w') -> w' = after_open path w.
Proof.
  intros H. pose proof (get_file_state path w) as Hs. rewrite H in Hs. cbn in Hs.
  destruct (resolve (fs w) path) as [n| | | |] eqn:Hf; try assumption.
  rewrite get_file_missing in H by assumption. discriminate.
Qed.

(** ** Loads of a stored corpus *)

Lemma load_resolved (key dir : string) w :
  parent_dir w = Some dir ->
  (let* d := self_parent_dir in get_file (os_path_join d key)) w
  = get_file (scalar:=scalar) (os_path_join dir key) w.
Proof. intros Hd. unfold bind, self_parent_dir. now rewrite Hd. Qed.

(** X2: a load of a stored corpus, and the load of the labels, return the
    object found in the resolved file whatever its kind: the loader does not
    check that a one-hot artifact is sparse or that an embedding is a
    matrix. *)
Theorem stored_load_returns_file_object (dir : string) (item : pyobj scalar) w :
  parent_dir w = Some dir ->
  (forall corpus scorer normalize,
      corpus ∈ stored_corpora ->
      scorer ∈ [PyStr "count"; PyStr "tfidf"] ->
      (exists b, normalize = PyBool b) ->
      let path := os_path_join dir
        (py_str corpus +:+ "-onehot(scorer=" +:+ py_str scorer
         +:+ (if truthy normalize then ", normalized" else "") +:+ ").pkl") in
      fs w !! path = Some (File (Some item)) ->
      get_onehot hstack_foreign corpus scorer normalize w = (Ok item, after_open path w))
  /\ (forall corpus vec_size win_size min_count dm epochs,
        corpus ∈ stored_corpora ->
        let path := os_path_join dir
          (py_str corpus +:+ "-d2v(vecsize=" +:+ py_str vec_size
           +:+ ", winsize=" +:+ py_str win_size
           +:+ ", mincount=" +:+ py_str min_count
           +:+ ", " +:+ (if truthy dm then "dm" else "dbow")
           +:+ ", epochs=" +:+ py_str epochs +:+ ").pkl") in
        fs w !! path = Some (File (Some item)) ->
        get_d2v corpus vec_size win_size min_count dm epochs w
        = (Ok item, after_open path w))
  /\ (forall corpus normalizer,
        corpus ∈ stored_corpora ->
        normalizer ∈ [PyNone; PyStr "l2"; PyStr "mean"] ->
        let path := os_path_join dir
          (py_str corpus +:+ "-nd2v(normalizer=" +:+ py_str normalizer +:+ ").pkl") in
        fs w !! path = Some (File (Some item)) ->
        get_nd2v corpus normalizer w = (Ok item, after_open path w))
  /\ (let path := os_path_join dir "label.pkl" in
      fs w !! path = Some (File (Some item)) ->
      get_label w = (Ok item, after_open path w)).
Proof.
  intros Hd. split; [|split; [|split]].
  - intros corpus scorer normalize Hc Hs [b ->] path Hf.
    rewrite get_onehot_stored by (assumption || reflexivity).
    rewrite (load_resolved _ _ _ Hd). exact (get_file_found _ _ _ Hf).
  - intros corpus vec_size win_size min_count dm epochs Hc path Hf.
    rewrite get_d2v_stored by assumption.
    rewrite (load_resolved _ _ _ Hd). exact (get_file_found _ _ _ Hf).
  - intros corpus normalizer Hc Hn path Hf.
    rewrite get_nd2v_stored by assumption.
    rewrite (load_resolved _ _ _ Hd). exact (get_file_found _ _ _ Hf).
  - intros path Hf. unfold get_label.
    rewrite (load_resolved _ _ _ Hd). exact (get_file_found _ _ _ Hf).
Qed.


(** ** Successful loads of the derived corpus *)

Lemma bind_ok_inv {A B : Type} (m : M scalar A) (k : A -> M scalar B) w (b : B) w' :
  bind m k w = (Ok b, w') -> exists a w1, m w = (Ok a, w1) /\ k a w1 = (Ok b, w').
Proof.
  unfold bind. destruct (m w) as [[a|e] w1]; [eauto | discriminate].
Qed.

Lemma load_ok_state (key dir : string) (item : pyobj scalar) w w' :
  parent_dir w = Some dir ->
  (let* d := self_parent_dir in get_file (os_path_join d key)) w = (Ok item, w') ->
  w' = after_open (os_path_join dir key) w.
Proof.
  intros Hd H. rewrite (load_resolved _ _ _ Hd) in H.
  exact (get_file_ok_state _ _ _ _ H).
Qed.

(** X5: a load of ["concat"] that returns has opened the ["title"] file and
    then the ["text"] file, each once, has printed nothing, and has left the
    files and the stored directory as they were. *)
Theorem concat_success_state (dir : string) (item : pyobj scalar) w w' :
  parent_dir w = Some dir ->
  (forall scorer normalize,
      get_onehot hstack_foreign (PyStr "concat") scorer normalize w = (Ok item, w') ->
      let key (name : string) :=
        name +:+ "-onehot(scorer=" +:+ py_str scorer
        +:+ (if truthy normalize then ", normalized" else "") +:+ ").pkl" in
      w' = after_open (os_path_join dir (key "text"))
             (after_open (os_path_join dir (key "title")) w))
  /\ (forall vec_size win_size min_count dm epochs,
        get_d2v (PyStr "concat") vec_size win_size min_count dm epochs w = (Ok item, w') ->
        let key (name : string) :=
          name +:+ "-d2v(vecsize=" +:+ py_str vec_size
          +:+ ", winsize=" +:+ py_str win_size
          +:+ ", mincount=" +:+ py_str min_count
          +:+ ", " +:+ (if truthy dm then "dm" else "dbow")
          +:+ ", epochs=" +:+ py_str epochs +:+ ").pkl" in
        w' = after_open (os_path_join dir (key "text"))
               (after_open (os_path_join dir (key "title")) w))
  /\ (forall normalizer,
        get_nd2v (PyStr "concat") normalizer w = (Ok item, w') ->
        let key (name : string) := name +:+ "-nd2v(normalizer=" +:+ py_str normalizer +:+ ").pkl" in
        w' = after_open (os_path_join dir (key "text"))
               (after_open (os_path_join dir (key "title")) w)).
Proof.
  intros Hd. split; [|split].
  - intros scorer normalize H key.
    destruct (get_onehot_ok_valid _ _ _ _ _ _ H) as [Hs Hn].
    rewrite get_onehot_concat in H by assumption.
    apply bind_ok_inv in H as (x & w1 & Ht & H).
    apply bind_ok_inv in H as (y & w2 & Hx & H).
    unfold lift in H. injection H as _ <-.
    rewrite get_onehot_stored in Ht by (assumption || apply title_stored).
    apply (load_ok_state _ _ _ _ _ Hd) in Ht. subst w1.
    rewrite get_onehot_stored in Hx by (assumption || apply text_stored).
    now apply (load_ok_state _ dir) in Hx.
  - intros vec_size win_size min_count dm epochs H key.
    rewrite get_d2v_concat in H.
    apply bind_ok_inv in H as (x & w1 & Ht & H).
    apply bind_ok_inv in H as (y & w2 & Hx & H).
    unfold lift in H. injection H as _ <-.
    rewrite get_d2v_stored in Ht by apply title_stored.
    apply (load_ok_state _ _ _ _ _ Hd) in Ht. subst w1.
    rewrite get_d2v_stored in Hx by apply text_stored.
    now apply (load_ok_state _ dir) in Hx.
  - intros normalizer H key.
    assert (Hn : normalizer ∈ [PyNone; PyStr "l2"; PyStr "mean"])
      by exact (get_nd2v_ok_valid _ _ _ _ _ H).
    rewrite get_nd2v_concat in H by assumption.
    apply bind_ok_inv in H as (x & w1 & Ht & H).
    apply bind_ok_inv in H as (y & w2 & Hx & H).
    unfold lift in H. injection H as _ <-.
    rewrite get_nd2v_stored in Ht by (assumption || apply title_stored).
    apply (load_ok_state _ _ _ _ _ Hd) in Ht. subst w1.
    rewrite get_nd2v_stored in Hx by (assumption || apply text_stored).
    now apply (load_ok_state _ dir) in Hx.
Qed.

(** ** Which assertion fails *)

(** X6: the assertions of a load run in the order of its parameters and
    the first one that fails gives the message: an invalid corpus is
    reported whatever the other parameters are, an invalid scorer is
    reported before a [normalize] that is not a bool, and an invalid
    normalizer is reported only for a corpus of the domain. *)
Theorem first_failed_assertion_is_reported w :
  (forall corpus scorer normalize,
      corpus ∉ corpus_domain ->
      get_onehot hstack_foreign corpus scorer normalize w
      = (Raise (AssertionError "`corpus` must be either 'title', 'text', or 'concat'"), w))
  /\ (forall corpus scorer normalize,
        corpus ∈ corpus_domain ->
        scorer ∉ [PyStr "count"; PyStr "tfidf"] ->
        get_onehot hstack_foreign corpus scorer normalize w
        = (Raise (AssertionError "`scorer` must be either 'count' or 'tfidf'"), w))
  /\ (forall corpus scorer normalize,
        corpus ∈ corpus_domain ->
        scorer ∈ [PyStr "count"; PyStr "tfidf"] ->
        (forall b, normalize <> PyBool b) ->
        get_onehot hstack_foreign corpus scorer normalize w
        = (Raise (AssertionError "`normalize` must be a bool"), w))
  /\ (forall corpus vec_size win_size min_count dm epochs,
        corpus ∉ corpus_domain ->
        get_d2v corpus vec_size win_size min_count dm epochs w
        = (Raise (AssertionError "`corpus` must be either 'title', 'text', or 'concat'"), w))
  /\ (forall corpus normalizer,
        corpus ∉ corpus_domain ->
        get_nd2v corpus normalizer w
        = (Raise (AssertionError "`corpus` must be either 'title', 'text', or 'concat'"), w))
  /\ (forall corpus normalizer,
        corpus ∈ corpus_domain ->
        normalizer ∉ [PyNone; PyStr "l2"; PyStr "mean"] ->
        get_nd2v corpus normalizer w
        = (Raise (AssertionError "`normalizer` must be 'l2', 'mean' or None"), w)).
Proof.
  split; [|split; [|split; [|split; [|split]]]].
  - intros corpus scorer normalize Hc. rewrite get_onehot_equation_1.
    now rewrite assert_fails by exact (not_true_false _ _ (py_in_corpus_domain corpus) Hc).
  - intros corpus scorer normalize Hc Hs. rewrite get_onehot_equation_1.
    rewrite assert_holds by now apply py_in_corpus_domain.
    now rewrite assert_fails by exact (not_true_false _ _ (py_in_scorers scorer) Hs).
  - intros corpus scorer normalize Hc Hs Hn. rewrite get_onehot_equation_1.
    rewrite assert_holds by now apply py_in_corpus_domain.
    rewrite assert_holds by now apply py_in_scorers.
    rewrite assert_fails; [reflexivity|].
    apply (not_true_false _ _ (isinstance_bool_spec normalize)).
    intros [b ->]. exact (Hn b eq_refl).
  - intros corpus vec_size win_size min_count dm epochs Hc. rewrite get_d2v_equation_1.
    now rewrite assert_fails by exact (not_true_false _ _ (py_in_corpus_domain corpus) Hc).
  - intros corpus normalizer Hc. rewrite get_nd2v_equation_1.
    now rewrite assert_fails by exact (not_true_false _ _ (py_in_corpus_domain corpus) Hc).
  - intros corpus normalizer Hc Hn. rewrite get_nd2v_equation_1.
    rewrite assert_holds by now apply py_in_corpus_domain.
    now rewrite assert_fails by exact (not_true_false _ _ (py_in_normalizers normalizer) Hn).
Qed.

(** ** Keys of distinct requests *)

Lemma append_cancel_l (p a b : string) : p +:+ a = p +:+ b -> a = b.
Proof.
  induction p as [|c p IH]; [exact id|].
  change (String c (p +:+ a) = String c (p +:+ b) -> a = b).
  intros [= H]. exact (IH H).
Qed.

Lemma numeral_split (s s' r r' : string) (c : ascii) :
  numeral s = true -> numeral s' = true -> numeral_char c = false ->
  s +:+ String c r = s' +:+ String c r' -> s = s' /\ r = r'.
Proof.
  intros Hs Hs' Hc. revert s' Hs'.
  induction s as [|d s IH]; intros [|d' s'] Hs' H.
  - change (String c r = String c r') in H. injection H as ->. auto.
  - change (String c r = String d' (s' +:+ String c r')) in H. injection H as -> _.
    cbn [numeral] in Hs'. rewrite Hc in Hs'. discriminate.
  - change (String d (s +:+ String c r) = String c r') in H. injection H as -> _.
    cbn [numeral] in Hs. rewrite Hc in Hs. discriminate.
  - change (String d (s +:+ String c r) = String d' (s' +:+ String c r')) in H.
    injection H as -> H.
    cbn [numeral] in Hs, Hs'. apply andb_true_iff in Hs as [_ Hs], Hs' as [_ Hs'].
    destruct (IH Hs s' Hs' H) as [-> ->]. auto.
Qed.

Lemma numeral_pretty_N_go (x : N) (s : string) :
  numeral s = true -> numeral (pretty_N_go x s) = true.
Proof.
  revert s. induction (N.lt_wf_0 x) as [x _ IH]. intros s Hs.
  destruct (N.eq_dec x 0%N) as [->|Hx]; [now rewrite pretty_N_go_0|].
  rewrite pretty_N_go_step by lia.
  apply IH; [apply N.div_lt; lia|].
  cbn [numeral]. rewrite Hs, andb_true_r.
  assert (Hm : (x mod 10 < 10)%N) by (apply N.mod_lt; lia).
  destruct (x mod 10)%N as [|q]; [reflexivity|].
  do 4 (destruct q as [q|q|]; try reflexivity; try lia).
Qed.

Lemma numeral_pretty (z : Z) : numeral (pretty z) = true.
Proof.
  assert (HN : forall x : N, numeral (pretty x) = true).
  { intros x. unfold pretty, pretty_N.
    destruct (decide (x = 0%N)); [reflexivity | now apply numeral_pretty_N_go]. }
  destruct z as [|q|q]; [reflexivity | apply HN |].
  change (numeral (String "-" (pretty (N.pos q))) = true).
  cbn [numeral]. now rewrite HN.
Qed.

Lemma numeral_field_split (s s' t r r' : string) (c : ascii) :
  numeral s = true -> numeral s' = true -> numeral_char c = false ->
  s +:+ String c t +:+ r = s' +:+ String c t +:+ r' -> s = s' /\ r = r'.
Proof.
  intros Hs Hs' Hc H.
  change (s +:+ String c (t +:+ r) = s' +:+ String c (t +:+ r')) in H.
  apply numeral_split in H as [-> H]; try assumption.
  split; [reflexivity | exact (append_cancel_l _ _ _ H)].
Qed.

Lemma stored_cases corpus :
  corpus ∈ stored_corpora -> corpus = PyStr "title" \/ corpus = PyStr "text".
Proof. unfold stored_corpora. rewrite !elem_of_cons, elem_of_nil. tauto. Qed.

Lemma corpus_prefix_split corpus corpus' (a b : string) :
  corpus ∈ stored_corpora -> corpus' ∈ stored_corpora ->
  py_str corpus +:+ String "-" a = py_str corpus' +:+ String "-" b ->
  corpus = corpus' /\ a = b.
Proof.
  intros [-> | ->]%stored_cases [-> | ->]%stored_cases H;
    vm_compute in H; (split; congruence) || discriminate.
Qed.

Lemma mode_split (dm dm' : bool) (a b : string) :
  (if dm then "dm" else "dbow") +:+ String "," a
  = (if dm' then "dm" else "dbow") +:+ String "," b ->
  dm = dm' /\ a = b.
Proof.
  destruct dm, dm'; intros H; vm_compute in H; (split; congruence) || discriminate.
Qed.

Lemma get_d2v_filename_eq corpus vec_size win_size min_count dm epochs :
  get_d2v_filename corpus vec_size win_size min_count dm epochs
  = Ok (py_str corpus +:+ "-d2v(vecsize=" +:+ py_str vec_size
        +:+ ", winsize=" +:+ py_str win_size
        +:+ ", mincount=" +:+ py_str min_count
        +:+ ", " +:+ (if truthy dm then "dm" else "dbow")
        +:+ ", epochs=" +:+ py_str epochs +:+ ").pkl").
Proof. reflexivity. Qed.

(** X7: on the stored corpora, integer sizes and counts and a boolean mode,
    the Doc2Vec key determines every parameter: two requests that differ in
    any of them resolve to different files. *)
Theorem get_d2v_filename_injective
    corpus corpus' (vec_size vec_size' win_size win_size' : Z)
    (min_count min_count' epochs epochs' : Z) (dm dm' : bool) :
  corpus ∈ stored_corpora -> corpus' ∈ stored_corpora ->
  get_d2v_filename corpus (PyInt vec_size) (PyInt win_size) (PyInt min_count)
    (PyBool dm) (PyInt epochs)
  = get_d2v_filename corpus' (PyInt vec_size') (PyInt win_size') (PyInt min_count')
      (PyBool dm') (PyInt epochs') ->
  corpus = corpus' /\ vec_size = vec_size' /\ win_size = win_size'
  /\ min_count = min_count' /\ dm = dm' /\ epochs = epochs'.
Proof using Type.
  intros Hc Hc'. rewrite !get_d2v_filename_eq. cbn [py_str truthy]. intros [= H].
  apply (corpus_prefix_split corpus corpus' _ _ Hc Hc') in H as [-> H].
  repeat injection H as H.
  apply numeral_field_split in H as [Hv H]; try apply numeral_pretty; [|reflexivity].
  apply numeral_field_split in H as [Hw H]; try apply numeral_pretty; [|reflexivity].
  apply numeral_field_split in H as [Hm H]; try apply numeral_pretty; [|reflexivity].
  apply mode_split in H as [-> H].
  repeat injection H as H.
  apply numeral_split in H as [He _]; try apply numeral_pretty; [|reflexivity].
  apply (inj pretty) in Hv, Hw, Hm, He. subst. repeat split.
Qed.

Lemma scorer_cases scorer :
  scorer ∈ [PyStr "count"; PyStr "tfidf"] -> scorer = PyStr "count" \/ scorer = PyStr "tfidf".
Proof. rewrite !elem_of_cons, elem_of_nil. tauto. Qed.

Lemma normalizer_cases normalizer :
  normalizer ∈ [PyNone; PyStr "l2"; PyStr "mean"] ->
  normalizer = PyNone \/ normalizer = PyStr "l2" \/ normalizer = PyStr "mean".
Proof. rewrite !elem_of_cons, elem_of_nil. tauto. Qed.

(** X8: on the parameters the loads accept, the one-hot key determines the
    corpus, the scorer and the normalization, and the naive Doc2Vec key
    determines the corpus and the normalizer: no two valid requests share a
    file. *)
Theorem enumerated_keys_injective :
  (forall corpus corpus' scorer scorer' (b b' : bool),
      corpus ∈ stored_corpora -> corpus' ∈ stored_corpora ->
      scorer ∈ [PyStr "count"; PyStr "tfidf"] ->
      scorer' ∈ [PyStr "count"; PyStr "tfidf"] ->
      get_onehot_filename corpus scorer (PyBool b)
      = get_onehot_filename corpus' scorer' (PyBool b') ->
      corpus = corpus' /\ scorer = scorer' /\ b = b')
  /\ (forall corpus corpus' normalizer normalizer',
        corpus ∈ stored_corpora -> corpus' ∈ stored_corpora ->
        normalizer ∈ [PyNone; PyStr "l2"; PyStr "mean"] ->
        normalizer' ∈ [PyNone; PyStr "l2"; PyStr "mean"] ->
        get_nd2v_filename corpus normalizer = get_nd2v_filename corpus' normalizer' ->
        corpus = corpus' /\ normalizer = normalizer').
Proof using Type.
  split.
  - intros corpus corpus' scorer scorer' b b'
      [-> | ->]%stored_cases [-> | ->]%stored_cases
      [-> | ->]%scorer_cases [-> | ->]%scorer_cases H;
      destruct b, b'; vm_compute in H; (repeat split; congruence) || discriminate.
  - intros corpus corpus' normalizer normalizer'
      [-> | ->]%stored_cases [-> | ->]%stored_cases
      [-> | [-> | ->]]%normalizer_cases [-> | [-> | ->]]%normalizer_cases H;
      vm_compute in H; (repeat split; congruence) || discriminate.
Qed.

(** X9: the four kinds of artifact never resolve to the same file name:
    for stored corpora and any other parameters, a one-hot key, a Doc2Vec
    key, a naive Doc2Vec key and [label.pkl] are pairwise different. *)
Theorem keys_of_distinct_kinds_differ
    corpus corpus' scorer normalize vec_size win_size min_count dm epochs normalizer :
  corpus ∈ stored_corpora -> corpus' ∈ stored_corpora ->
  get_onehot_filename corpus scorer normalize
  <> get_d2v_filename corpus' vec_size win_size min_count dm epochs
  /\ get_onehot_filename corpus scorer normalize <> get_nd2v_filename corpus' normalizer
  /\ get_d2v_filename corpus vec_size win_size min_count dm epochs
     <> get_nd2v_filename corpus' normalizer
  /\ get_onehot_filename corpus scorer normalize <> Ok "label.pkl"
  /\ get_d2v_filename corpus vec_size win_size min_count dm epochs <> Ok "label.pkl"
  /\ get_nd2v_filename corpus normalizer <> Ok "label.pkl".
Proof using Type.
  intros [-> | ->]%stored_cases [-> | ->]%stored_cases;
    repeat split; intros H; vm_compute in H; discriminate.
Qed.

(** ** Where a stored corpus resolves *)

Lemma prefix_append (d x : string) : String.prefix d (d +:+ x) = true.
Proof.
  induction d as [|c d IH]; [destruct x; reflexivity|].
  change (String.prefix (String c d) (String c (d +:+ x)) = true).
  cbn [String.prefix]. destruct (Ascii.ascii_dec c c); [exact IH | congruence].
Qed.

Lemma os_path_join_relative (dir key : string) :
  String.prefix "/" key = false ->
  os_path_join dir key
  = dir +:+ (if (dir =? "")%string || endswith_sep dir then "" else "/") +:+ key.
Proof.
  intros H. unfold os_path_join. rewrite H.
  destruct ((dir =? "")%string || endswith_sep dir); reflexivity.
Qed.

(** X10: for a stored corpus no key is an absolute path, whatever the
    other parameters print as, so every file a load resolves is named by the
    stored directory, a separator unless the directory is empty or ends with
    one, and the key; the same holds for the labels. *)
Theorem stored_keys_resolve_under_parent_dir
    (dir : string) corpus scorer normalize vec_size win_size min_count dm epochs normalizer :
  corpus ∈ stored_corpora ->
  forall key : string,
    get_onehot_filename corpus scorer normalize = Ok key
    \/ get_d2v_filename corpus vec_size win_size min_count dm epochs = Ok key
    \/ get_nd2v_filename corpus normalizer = Ok key
    \/ key = "label.pkl" ->
    os_path_join dir key
    = dir +:+ (if (dir =? "")%string || endswith_sep dir then "" else "/") +:+ key
    /\ String.prefix dir (os_path_join dir key) = true.
Proof using Type.
  intros Hc key Hk.
  assert (Hrel : String.prefix "/" key = false).
  { apply stored_cases in Hc.
    destruct Hc as [-> | ->], Hk as [Hk | [Hk | [Hk | ->]]];
      try reflexivity; vm_compute in Hk; injection Hk as <-; reflexivity. }
  rewrite (os_path_join_relative _ _ Hrel). split; [reflexivity | apply prefix_append].
Qed.

(** ** The script *)

Lemma init_on_directory (dir : string) w :
  fs w !! dir = Some Dir ->
  __init__ dir w = (Ok tt, World (fs w) (Some dir) (stdout w) (opened w)).
Proof. intros H. unfold __init__, bind, os_path_isdir. now rewrite H. Qed.

Lemma init_off_directory (dir : string) w :
  fs w !! dir <> Some Dir ->
  __init__ dir w = (Raise (AssertionError (dir +:+ " is not a valid directory")), w).
Proof.
  intros H. unfold __init__, bind, os_path_isdir.
  destruct (fs w !! dir) as [[|content]|]; [congruence | reflexivity | reflexivity].
Qed.

(** A name looked up in a directory that the map lists with its
    separator. *)
Lemma walk_in_listed_directory (files : gmap string (node scalar)) (dir name : string) :
  files !! (dir +:+ "/") = Some Dir ->
  (NAME_MAX <? utf8_length dir)%nat = false ->
  (NAME_MAX <? utf8_length name)%nat = false ->
  walk files "" [dir; name] = Missing.
Proof.
  intros Hdir Hd Hn. cbn [walk]. rewrite Hd.
  unfold blocked. change ("" +:+ dir) with dir. rewrite Hdir.
  cbn [walk]. now rewrite Hn.
Qed.

(** Resolve the load at hand under the directory [base], naming the path
    it computes [target]. *)
Ltac resolve_under base target :=
  rewrite load_resolved with (dir := base) by reflexivity;
  match goal with
  | |- context [os_path_join ?d ?k] => change (os_path_join d k) with target
  end.

(** X11: the script constructs the loader on ["embeddings/"] and loads the
    ["concat"] Doc2Vec, naive Doc2Vec and one-hot embeddings with the default
    parameters.  It fails on the constructor's assertion, opening nothing,
    when ["embeddings/"] is not a directory; it stops at the first load when
    the ["title"] Doc2Vec file is missing; and when the six default files hold
    matrices of matching row counts it succeeds, having opened exactly those
    six files in that order and printed nothing. *)
Theorem main_reads_the_default_artifacts w :
  let d2v_title := "embeddings/title-d2v(vecsize=300, winsize=13, mincount=5, dbow, epochs=100).pkl" in
  let d2v_text := "embeddings/text-d2v(vecsize=300, winsize=13, mincount=5, dbow, epochs=100).pkl" in
  let nd2v_title := "embeddings/title-nd2v(normalizer=None).pkl" in
  let nd2v_text := "embeddings/text-nd2v(normalizer=None).pkl" in
  let onehot_title := "embeddings/title-onehot(scorer=count).pkl" in
  let onehot_text := "embeddings/text-onehot(scorer=count).pkl" in
  (fs w !! "embeddings/" <> Some Dir ->
     main hstack_foreign w
     = (Raise (AssertionError "embeddings/ is not a valid directory"), w))
  /\ (fs w !! "embeddings/" = Some Dir ->
      fs w !! d2v_title = None ->
      main hstack_foreign w
      = (Raise (FileNotFoundError d2v_title),
         not_found_world d2v_title
           (World (fs w) (Some "embeddings/") (stdout w) (opened w))))
  /\ (forall a1 b1 a2 b2 a3 b3 : matrix scalar,
        fs w !! "embeddings/" = Some Dir ->
        fs w !! d2v_title = Some (File (Some (NdArray2 a1))) ->
        fs w !! d2v_text = Some (File (Some (NdArray2 b1))) ->
        fs w !! nd2v_title = Some (File (Some (NdArray2 a2))) ->
        fs w !! nd2v_text = Some (File (Some (NdArray2 b2))) ->
        fs w !! onehot_title = Some (File (Some (SparseMatrix a3))) ->
        fs w !! onehot_text = Some (File (Some (SparseMatrix b3))) ->
        nrows a1 = nrows b1 -> nrows a2 = nrows b2 -> nrows a3 = nrows b3 ->
        main hstack_foreign w
        = (Ok tt,
           World (fs w) (Some "embeddings/") (stdout w)
             (opened w ++ [d2v_title; d2v_text; nd2v_title; nd2v_text;
                           onehot_title; onehot_text]))).
Proof.
  intros d2v_title d2v_text nd2v_title nd2v_text onehot_title onehot_text.
  split; [|split].
  - intros Hdir. unfold main.
    exact (bind_raise _ _ _ _ _ (init_off_directory _ _ Hdir)).
  - intros Hdir Hmiss. unfold main.
    rewrite (bind_ok _ _ _ _ _ (init_on_directory _ _ Hdir)).
    apply bind_raise. rewrite get_d2v_concat. apply bind_raise.
    rewrite get_d2v_stored by apply title_stored.
    resolve_under "embeddings/" d2v_title. apply get_file_missing.
    cbn [fs]. unfold resolve. rewrite Hmiss.
    exact (walk_in_listed_directory (fs w) "embeddings"
             "title-d2v(vecsize=300, winsize=13, mincount=5, dbow, epochs=100).pkl"
             Hdir eq_refl eq_refl).
  - intros a1 b1 a2 b2 a3 b3 Hdir H1 H2 H3 H4 H5 H6 Hr1 Hr2 Hr3. unfold main.
    rewrite (bind_ok _ _ _ _ _ (init_on_directory _ _ Hdir)).
    set (w0 := World (fs w) (Some "embeddings/") (stdout w) (opened w)).
    assert (Hd2v :
      get_d2v (PyStr "concat") (PyInt 300) (PyInt 13) (PyInt 5) (PyBool false) (PyInt 100) w0
      = (Ok (NdArray2 (stack_columns a1 b1)), after_open d2v_text (after_open d2v_title w0))).
    { rewrite get_d2v_concat.
      erewrite bind_ok;
        [|rewrite get_d2v_stored by apply title_stored;
          resolve_under "embeddings/" d2v_title; exact (get_file_found _ _ w0 H1)].
      erewrite bind_ok;
        [|rewrite get_d2v_stored by apply text_stored;
          resolve_under "embeddings/" d2v_text;
          exact (get_file_found _ _ (after_open d2v_title w0) H2)].
      unfold lift, np_concatenate_axis1. apply Nat.eqb_eq in Hr1. now rewrite Hr1. }
    rewrite (bind_ok _ _ _ _ _ Hd2v).
    set (w2 := after_open d2v_text (after_open d2v_title w0)).
    assert (Hnd2v :
      get_nd2v (PyStr "concat") PyNone w2
      = (Ok (NdArray2 (stack_columns a2 b2)), after_open nd2v_text (after_open nd2v_title w2))).
    { rewrite get_nd2v_concat by (apply py_in_normalizers; reflexivity).
      erewrite bind_ok;
        [|rewrite get_nd2v_stored
            by (apply title_stored || (apply py_in_normalizers; reflexivity));
          resolve_under "embeddings/" nd2v_title; exact (get_file_found _ _ w2 H3)].
      erewrite bind_ok;
        [|rewrite get_nd2v_stored
            by (apply text_stored || (apply py_in_normalizers; reflexivity));
          resolve_under "embeddings/" nd2v_text;
          exact (get_file_found _ _ (after_open nd2v_title w2) H4)].
      unfold lift, np_concatenate_axis1. apply Nat.eqb_eq in Hr2. now rewrite Hr2. }
    rewrite (bind_ok _ _ _ _ _ Hnd2v).
    set (w4 := after_open nd2v_text (after_open nd2v_title w2)).
    assert (Honehot :
      get_onehot hstack_foreign (PyStr "concat") (PyStr "count") (PyBool false) w4
      = (Ok (SparseMatrix (stack_columns a3 b3)),
         after_open onehot_text (after_open onehot_title w4))).
    { rewrite get_onehot_concat by ((apply py_in_scorers; reflexivity) || reflexivity).
      erewrite bind_ok;
        [|rewrite get_onehot_stored
            by (apply title_stored || (apply py_in_scorers; reflexivity) || reflexivity);
          resolve_under "embeddings/" onehot_title; exact (get_file_found _ _ w4 H5)].
      erewrite bind_ok;
        [|rewrite get_onehot_stored
            by (apply text_stored || (apply py_in_scorers; reflexivity) || reflexivity);
          resolve_under "embeddings/" onehot_text;
          exact (get_file_found _ _ (after_open onehot_title w4) H6)].
      unfold lift, hstack. apply Nat.eqb_eq in Hr3. now rewrite Hr3. }
    rewrite (bind_ok _ _ _ _ _ Honehot).
    subst w4 w2 w0. unfold ret, after_open. cbn [fs parent_dir stdout opened].
    rewrite <- !app_assoc. reflexivity.
Qed.

(** ** Loads do not interfere *)

Lemma reads_only_after {A B : Type} (m1 : M scalar A) (m2 : M scalar B) w :
  reads_only m1 -> reads_only m2 -> fst (m2 (snd (m1 w))) = fst (m2 w).
Proof.
  intros H1 H2. destruct (H1 w) as [Hsame _]. destruct (H2 w) as [_ Hr].
  now apply Hr.
Qed.

Lemma reads_only_all_loads
    corpus scorer normalize vec_size win_size min_count dm epochs normalizer
    (m : M scalar (pyobj scalar)) :
  m ∈ all_loads hstack_foreign corpus scorer normalize vec_size win_size min_count dm epochs
        normalizer ->
  reads_only m.
Proof.
  unfold all_loads. rewrite !elem_of_cons, elem_of_nil.
  intros [-> | [-> | [-> | [-> | []]]]].
  - apply reads_only_get_onehot.
  - apply reads_only_get_d2v.
  - apply reads_only_get_nd2v.
  - apply reads_only_get_label.
Qed.

(** X12: loads do not interfere with one another: the outcome of any load
    is the same whether it runs first or right after any other load, with
    whatever parameters and whether or not that other load failed. *)
Theorem loads_do_not_interfere
    corpus scorer normalize vec_size win_size min_count dm epochs normalizer
    corpus' scorer' normalize' vec_size' win_size' min_count' dm' epochs' normalizer'
    (before after : M scalar (pyobj scalar)) w :
  before ∈ all_loads hstack_foreign corpus scorer normalize vec_size win_size min_count
             dm epochs normalizer ->
  after ∈ all_loads hstack_foreign corpus' scorer' normalize' vec_size' win_size' min_count'
            dm' epochs' normalizer' ->
  fst (after (snd (before w))) = fst (after w).
Proof.
  intros Hb Ha.
  apply reads_only_after; eapply reads_only_all_loads; eassumption.
Qed.

End Properties.

(** * The properties on the sample directory *)

(** The three ["concat"] loads of the sample directory return the stacked
    matrices. *)
Lemma concat_is_column_stack_witness :
  get_onehot sample_foreign (PyStr "concat") (PyStr "count") (PyBool false) sample_world
  = (Ok (SparseMatrix (Matrix (2, 3) [[1; 2; 5]; [3; 4; 6]]%Z)),
     sample_after ["embeddings/title-onehot(scorer=count).pkl";
                   "embeddings/text-onehot(scorer=count).pkl"])
  /\ get_d2v (PyStr "concat") (PyInt 300) (PyInt 13) (PyInt 5) (PyBool false) (PyInt 100)
       sample_world
     = (Ok (NdArray2 (Matrix (2, 3) [[1; 2; 5]; [3; 4; 6]]%Z)),
        sample_after
          ["embeddings/title-d2v(vecsize=300, winsize=13, mincount=5, dbow, epochs=100).pkl";
           "embeddings/text-d2v(vecsize=300, winsize=13, mincount=5, dbow, epochs=100).pkl"])
  /\ get_nd2v (PyStr "concat") PyNone sample_world
     = (Ok (NdArray2 (Matrix (2, 3) [[1; 2; 5]; [3; 4; 6]]%Z)),
        sample_after ["embeddings/title-nd2v(normalizer=None).pkl";
                      "embeddings/text-nd2v(normalizer=None).pkl"]).
Proof.
  destruct (concat_is_column_stack sample_foreign sample_world)
    as (_ & Honehot & _ & Hd2v & _ & Hnd2v).
  split; [|split].
  - refine (proj1 (Honehot (PyStr "count") (PyBool false) sample_title sample_text
                     (sample_after ["embeddings/title-onehot(scorer=count).pkl"]) _ _ _ _));
      vm_compute; reflexivity.
  - refine (Hd2v (PyInt 300) (PyInt 13) (PyInt 5) (PyBool false) (PyInt 100)
              sample_title sample_text
              (sample_after
                 ["embeddings/title-d2v(vecsize=300, winsize=13, mincount=5, dbow, epochs=100).pkl"])
              _ _ _ _);
      vm_compute; reflexivity.
  - refine (Hnd2v PyNone sample_title sample_text
              (sample_after ["embeddings/title-nd2v(normalizer=None).pkl"]) _ _ _ _);
      vm_compute; reflexivity.
Defined.

(** Out-of-domain parameters on the sample directory. *)
Lemma invalid_parameters_fail_before_io_witness :
  (exists msg,
      get_onehot sample_foreign (PyStr "body") (PyStr "count") (PyBool false) sample_world
      = (Raise (AssertionError msg), sample_world))
  /\ (exists msg,
        get_onehot sample_foreign (PyStr "title") (PyStr "bm25") (PyBool false) sample_world
        = (Raise (AssertionError msg), sample_world))
  /\ (exists msg,
        get_onehot sample_foreign (PyStr "title") (PyStr "count") (PyInt 1) sample_world
        = (Raise (AssertionError msg), sample_world))
  /\ (exists msg,
        get_d2v (PyStr "body") (PyInt 300) (PyInt 13) (PyInt 5) (PyBool false) (PyInt 100)
          sample_world
        = (Raise (AssertionError msg), sample_world))
  /\ (exists msg,
        get_nd2v (PyStr "title") (PyStr "max") sample_world
        = (Raise (AssertionError msg), sample_world)).
Proof.
  destruct (invalid_parameters_fail_before_io sample_foreign sample_world)
    as (Honehot & Hd2v & Hnd2v).
  split; [|split; [|split; [|split]]].
  - apply Honehot. left. intros H. apply py_in_corpus_domain in H. discriminate.
  - apply Honehot. right; left. intros H. apply py_in_scorers in H. discriminate.
  - apply Honehot. right; right. intros b. discriminate.
  - apply Hd2v. intros H. apply py_in_corpus_domain in H. discriminate.
  - apply Hnd2v. right. intros H. apply py_in_normalizers in H. discriminate.
Defined.

(** The sample artifacts of two and of one row do not combine. *)
Lemma concat_row_mismatch_fails_witness :
  (exists msg,
      get_onehot sample_foreign (PyStr "concat") (PyStr "tfidf") (PyBool false) sample_world
      = (Raise (ValueError msg),
         sample_after ["embeddings/title-onehot(scorer=tfidf).pkl";
                       "embeddings/text-onehot(scorer=tfidf).pkl"]))
  /\ (exists msg,
        get_d2v (PyStr "concat") (PyInt 300) (PyInt 13) (PyInt 25) (PyBool false) (PyInt 100)
          sample_world
        = (Raise (ValueError msg),
           sample_after
             ["embeddings/title-d2v(vecsize=300, winsize=13, mincount=25, dbow, epochs=100).pkl";
              "embeddings/text-d2v(vecsize=300, winsize=13, mincount=25, dbow, epochs=100).pkl"]))
  /\ (exists msg,
        get_nd2v (PyStr "concat") (PyStr "l2") sample_world
        = (Raise (ValueError msg),
           sample_after ["embeddings/title-nd2v(normalizer=l2).pkl";
                         "embeddings/text-nd2v(normalizer=l2).pkl"])).
Proof.
  destruct (concat_row_mismatch_fails sample_foreign sample_world)
    as (Honehot & Hd2v & Hnd2v).
  split; [|split].
  - refine (Honehot (PyStr "tfidf") (PyBool false) sample_title sample_short
              (sample_after ["embeddings/title-onehot(scorer=tfidf).pkl"]) _ _ _ _);
      vm_compute; (reflexivity || discriminate).
  - refine (Hd2v (PyInt 300) (PyInt 13) (PyInt 25) (PyBool false) (PyInt 100)
              sample_title sample_short
              (sample_after
                 ["embeddings/title-d2v(vecsize=300, winsize=13, mincount=25, dbow, epochs=100).pkl"])
              _ _ _ _);
      vm_compute; (reflexivity || discriminate).
  - refine (Hnd2v (PyStr "l2") sample_title sample_short
              (sample_after ["embeddings/title-nd2v(normalizer=l2).pkl"]) _ _ _ _);
      vm_compute; (reflexivity || discriminate).
Defined.



(** Construction on a directory, on a file and on a missing path. *)
Lemma init_validates_directory_witness :
  __init__ "embeddings" sample_fresh = (Ok tt, sample_world)
  /\ __init__ "embeddings/label.pkl" sample_fresh
     = (Raise (AssertionError "embeddings/label.pkl is not a valid directory"), sample_fresh)
  /\ __init__ "nowhere" sample_fresh
     = (Raise (AssertionError "nowhere is not a valid directory"), sample_fresh).
Proof.
  split; [|split].
  - apply (proj2 (init_validates_directory "embeddings" sample_fresh)).
    vm_compute; reflexivity.
  - apply (proj1 (init_validates_directory "embeddings/label.pkl" sample_fresh)).
    vm_compute; discriminate.
  - apply (proj1 (init_validates_directory "nowhere" sample_fresh)).
    vm_compute; discriminate.
Defined.

(** Loading twice from the sample directory. *)
Lemma loads_are_repeatable_witness :
  let m := get_onehot sample_foreign (PyStr "concat") (PyStr "count") (PyBool false) in
  fst (m (snd (m sample_world))) = fst (m sample_world)
  /\ fs (snd (m sample_world)) = sample_fs
  /\ parent_dir (snd (m sample_world)) = Some "embeddings".
Proof.
  intros m.
  destruct (loads_are_repeatable sample_foreign (PyStr "concat") (PyStr "count") (PyBool false)
              PyNone PyNone PyNone PyNone PyNone PyNone) as ((Hreads & _) & Htwice).
  split; [exact (proj1 (Htwice sample_world))|].
  exact (proj1 (Hreads sample_world)).
Defined.

(** Doc2Vec parameters of unusual types reach the file name unchecked. *)
Lemma get_d2v_validates_corpus_only_witness :
  get_d2v (PyStr "text") (PyStr "wide") PyNone (PyInt 5) (PyInt 1) (PyBool true) sample_world
  = (Raise (FileNotFoundError
       "embeddings/text-d2v(vecsize=wide, winsize=None, mincount=5, dm, epochs=True).pkl"),
     not_found_world
       "embeddings/text-d2v(vecsize=wide, winsize=None, mincount=5, dm, epochs=True).pkl"
       sample_world)
  /\ fst (get_d2v (PyStr "concat") (PyStr "wide") PyNone (PyInt 5) (PyInt 1) (PyBool true)
            sample_world)
     <> Raise (AssertionError "`corpus` must be either 'title', 'text', or 'concat'").
Proof.
  destruct (get_d2v_validates_corpus_only (scalar:=Z) sample_world) as (Hload & Hassert & _).
  split.
  - rewrite Hload by (apply py_in_stored_corpora; reflexivity).
    vm_compute; reflexivity.
  - apply Hassert. apply py_in_corpus_domain. reflexivity.
Defined.

(** * The further properties on the sample directory *)

(** The label file, a damaged label file and the directory itself. *)
Lemma get_file_existing_path_witness :
  get_file "embeddings/label.pkl" sample_world
  = (Ok (NdArray1 [0; 1]%Z), after_open "embeddings/label.pkl" sample_world)
  /\ get_file "embeddings/label.pkl" sample_damaged
     = (Raise UnpicklingError, after_open "embeddings/label.pkl" sample_damaged)
  /\ get_file "embeddings" sample_world
     = (Raise (IsADirectoryError "[Errno 21] Is a directory: 'embeddings'"),
        after_open "embeddings" sample_world).
Proof.
  split; [|split].
  - apply (proj1 (get_file_existing_path "embeddings/label.pkl" sample_world)).
    vm_compute; reflexivity.
  - apply (proj1 (proj2 (get_file_existing_path "embeddings/label.pkl" sample_damaged))).
    vm_compute; reflexivity.
  - apply (proj2 (proj2 (get_file_existing_path "embeddings" sample_world))).
    vm_compute; reflexivity.
Defined.

(** The labels are a vector and are returned as such. *)
Lemma stored_load_returns_file_object_witness :
  get_label sample_world
  = (Ok (NdArray1 [0; 1]%Z), after_open "embeddings/label.pkl" sample_world).
Proof.
  apply (proj2 (proj2 (proj2
    (stored_load_returns_file_object sample_foreign "embeddings" (NdArray1 [0; 1]%Z)
       sample_world eq_refl)))).
  vm_compute; reflexivity.
Defined.


(** The state after the sample one-hot concatenation. *)
Lemma concat_success_state_witness :
  sample_after ["embeddings/title-onehot(scorer=count).pkl";
                "embeddings/text-onehot(scorer=count).pkl"]
  = after_open "embeddings/text-onehot(scorer=count).pkl"
      (after_open "embeddings/title-onehot(scorer=count).pkl" sample_world).
Proof.
  exact (proj1 (concat_success_state sample_foreign "embeddings"
                  (SparseMatrix (Matrix (2, 3) [[1; 2; 5]; [3; 4; 6]]%Z))
                  sample_world
                  (sample_after ["embeddings/title-onehot(scorer=count).pkl";
                                 "embeddings/text-onehot(scorer=count).pkl"])
                  eq_refl)
           (PyStr "count") (PyBool false) ltac:(reflexivity)).
Defined.

(** Two invalid parameters at once: the corpus is the one reported. *)
Lemma first_failed_assertion_is_reported_witness :
  get_onehot sample_foreign (PyStr "body") (PyStr "bm25") (PyInt 1) sample_world
  = (Raise (AssertionError "`corpus` must be either 'title', 'text', or 'concat'"),
     sample_world)
  /\ get_onehot sample_foreign (PyStr "concat") (PyStr "bm25") (PyInt 1) sample_world
     = (Raise (AssertionError "`scorer` must be either 'count' or 'tfidf'"), sample_world)
  /\ get_nd2v (PyStr "concat") (PyStr "max") sample_world
     = (Raise (AssertionError "`normalizer` must be 'l2', 'mean' or None"), sample_world).
Proof.
  destruct (first_failed_assertion_is_reported sample_foreign sample_world)
    as (Hcorpus & Hscorer & _ & _ & _ & Hnormalizer).
  split; [|split].
  - apply Hcorpus. intros H. apply py_in_corpus_domain in H. discriminate.
  - apply Hscorer.
    + apply py_in_corpus_domain. reflexivity.
    + intros H. apply py_in_scorers in H. discriminate.
  - apply Hnormalizer.
    + apply py_in_corpus_domain. reflexivity.
    + intros H. apply py_in_normalizers in H. discriminate.
Defined.

(** Keys with a different [min_count] are different. *)
Lemma get_d2v_filename_injective_witness :
  get_d2v_filename (PyStr "text") (PyInt 300) (PyInt 13) (PyInt 5) (PyBool false) (PyInt 100)
  <> get_d2v_filename (PyStr "text") (PyInt 300) (PyInt 13) (PyInt 25) (PyBool false)
       (PyInt 100)
  /\ (5 = 5)%Z.
Proof.
  split.
  - intros H.
    apply (get_d2v_filename_injective (PyStr "text") (PyStr "text")) in H
      as (_ & _ & _ & Hm & _); [discriminate | | ]; apply py_in_stored_corpora; reflexivity.
  - exact (proj1 (proj2 (proj2 (proj2
      (get_d2v_filename_injective (PyStr "text") (PyStr "text") 300 300 13 13 5 5 100 100
         false false
         text_stored text_stored eq_refl))))).
Defined.

(** A key is shared only by equal requests. *)
Lemma enumerated_keys_injective_witness :
  (PyStr "title" = PyStr "title" /\ PyStr "tfidf" = PyStr "tfidf" /\ true = true)
  /\ (PyStr "text" = PyStr "text" /\ PyStr "l2" = PyStr "l2").
Proof.
  split.
  - apply (proj1 enumerated_keys_injective);
      try (apply py_in_stored_corpora; reflexivity);
      try (apply py_in_scorers; reflexivity); reflexivity.
  - apply (proj2 enumerated_keys_injective);
      try (apply py_in_stored_corpora; reflexivity);
      try (apply py_in_normalizers; reflexivity); reflexivity.
Defined.

(** The default keys of the three kinds on one corpus. *)
Lemma keys_of_distinct_kinds_differ_witness :
  get_onehot_filename (PyStr "title") (PyStr "count") (PyBool false)
  <> get_d2v_filename (PyStr "title") (PyInt 300) (PyInt 13) (PyInt 5) (PyBool false)
       (PyInt 100)
  /\ get_nd2v_filename (PyStr "title") PyNone <> Ok "label.pkl".
Proof.
  destruct (keys_of_distinct_kinds_differ (PyStr "title") (PyStr "title") (PyStr "count")
              (PyBool false) (PyInt 300) (PyInt 13) (PyInt 5) (PyBool false) (PyInt 100)
              PyNone
              title_stored title_stored)
    as (H1 & _ & _ & _ & _ & H6).
  split; assumption.
Defined.

(** With and without a trailing separator. *)
Lemma stored_keys_resolve_under_parent_dir_witness :
  os_path_join "embeddings" "title-onehot(scorer=count).pkl"
  = "embeddings/title-onehot(scorer=count).pkl"
  /\ os_path_join "embeddings/" "label.pkl" = "embeddings/label.pkl".
Proof.
  split.
  - exact (proj1 (stored_keys_resolve_under_parent_dir "embeddings" (PyStr "title")
                    (PyStr "count") (PyBool false) PyNone PyNone PyNone PyNone PyNone PyNone
                    title_stored
                    "title-onehot(scorer=count).pkl" (or_introl eq_refl))).
  - exact (proj1 (stored_keys_resolve_under_parent_dir "embeddings/" (PyStr "title")
                    PyNone PyNone PyNone PyNone PyNone PyNone PyNone PyNone
                    title_stored
                    "label.pkl" (or_intror (or_intror (or_intror eq_refl))))).
Defined.

(** The script on the sample directory. *)
Lemma main_reads_the_default_artifacts_witness :
  main sample_foreign sample_script_world
  = (Ok tt,
     World (<["embeddings/" := Dir]> sample_fs) (Some "embeddings/") []
       ["embeddings/title-d2v(vecsize=300, winsize=13, mincount=5, dbow, epochs=100).pkl";
        "embeddings/text-d2v(vecsize=300, winsize=13, mincount=5, dbow, epochs=100).pkl";
        "embeddings/title-nd2v(normalizer=None).pkl";
        "embeddings/text-nd2v(normalizer=None).pkl";
        "embeddings/title-onehot(scorer=count).pkl";
        "embeddings/text-onehot(scorer=count).pkl"])
  /\ main sample_foreign sample_world
     = (Raise (AssertionError "embeddings/ is not a valid directory"), sample_world).
Proof.
  split.
  - refine (proj2 (proj2 (main_reads_the_default_artifacts sample_foreign sample_script_world))
              sample_title sample_text sample_title sample_text sample_title sample_text
              _ _ _ _ _ _ _ _ _ _); vm_compute; reflexivity.
  - apply (proj1 (main_reads_the_default_artifacts sample_foreign sample_world)).
    vm_compute; discriminate.
Defined.

(** The labels load the same after a failed one-hot load. *)
Lemma loads_do_not_interfere_witness :
  fst (get_label
         (snd (get_onehot sample_foreign (PyStr "title") (PyStr "count") (PyBool true)
                 sample_world)))
  = fst (get_label sample_world).
Proof.
  apply (loads_do_not_interfere sample_foreign
           (PyStr "title") (PyStr "count") (PyBool true) PyNone PyNone PyNone PyNone PyNone
           PyNone
           PyNone PyNone PyNone PyNone PyNone PyNone PyNone PyNone PyNone).
  - unfold all_loads. apply elem_of_cons. left. reflexivity.
  - unfold all_loads. rewrite !elem_of_cons. right; right; right; left. reflexivity.
Defined.

